(** * MELLODDY-Predictor: the orchestration layer of [prediction_system.py]

    The module [model_manipulation_software/prediction_system.py] is glue code:
    a per-model handle ([Model]) and a per-deployment registry
    ([PredictionSystem]) that call into [os], [pathlib], [melloddy_tuner],
    [sparsechem] and [torch].  The embedding below keeps the delegated
    libraries abstract (the class [Lib]) and models what the module itself
    does: the order and the arguments of the delegated calls, the lazily
    filled attributes of a handle, the registry dictionary and the errors. *)

From stdpp Require Import gmap strings list.
From Stdlib Require Import ZArith.

Open Scope Z_scope.
Open Scope string_scope.

(** ** Python values and results *)

(** The values the module reads from or stores in a namespace: [None],
    booleans, integers and strings. *)
Inductive pyval : Type :=
  | VNone
  | VBool (b : bool)
  | VInt (z : Z)
  | VStr (s : string).

(** [argparse.Namespace] and [types.SimpleNamespace]: attribute name to value. *)
Abbreviation Namespace := (gmap string pyval).
Abbreviation Conf := (gmap string pyval).

(** A call either returns a value or raises. *)
Inductive result (E A : Type) : Type :=
  | Ok (a : A)
  | Raise (e : E).
Arguments Ok {E A} a.
Arguments Raise {E A} e.

(** ** The delegated libraries

    Every library function that can touch the outside (files, devices, the
    network objects the libraries own) is a transition on an abstract world
    [W] that may raise a library exception [Exc].  The three [os] queries read
    the file system of the world without changing it; [os.path.isdir] and
    [os.path.isfile] never raise. *)
Class Lib : Type := {
  W : Type;
  Path : Type;
  Exc : Type;
  DataFrame : Type;
  SparseMatrix : Type;
  Dataset : Type;
  Loader : Type;
  Net : Type;
  TorchDevice : Type;
  StateDict : Type;
  Ndarray : Type;
  (* pathlib: [p / name] and [str(p)] *)
  joinpath : Path -> string -> Path;
  path_str : Path -> string;
  (* os *)
  os_path_isdir : W -> Path -> bool;
  os_path_isfile : W -> Path -> bool;
  os_listdir : W -> Path -> result Exc (list string);
  (* melloddy_tuner *)
  read_input_file : string -> W -> result Exc DataFrame * W;
  do_prepare_prediction_online :
    Namespace -> DataFrame -> W -> result Exc SparseMatrix * W;
  (* sparsechem; [load_results f two_heads] stands for the "conf" entry of the
     dictionary the library returns, a SimpleNamespace it builds itself *)
  load_results : string -> bool -> W -> result Exc Conf * W;
  fold_transform_inputs :
    SparseMatrix -> pyval -> pyval -> W -> result Exc SparseMatrix * W;
  load_check_sparse :
    option string -> Z * pyval -> W -> result Exc SparseMatrix * W;
  ClassRegrSparseDataset :
    SparseMatrix -> SparseMatrix -> SparseMatrix -> W -> result Exc Dataset * W;
  SparseFFN : Conf -> W -> result Exc Net * W;
  sparsechem_predict :
    Net -> Loader -> string -> Z -> bool -> option pyval -> W ->
    result Exc (Ndarray * Ndarray) * W;
  (* scipy / numpy attribute reads: [x.shape[0]] and [a.shape] *)
  shape0 : SparseMatrix -> Z;
  ndarray_shape : Ndarray -> Z * Z;
  (* torch *)
  DataLoader : Dataset -> Z -> Z -> bool -> W -> result Exc Loader * W;
  net_to : Net -> string -> W -> result Exc Net * W;
  torch_device : string -> W -> result Exc TorchDevice * W;
  torch_load : Path -> TorchDevice -> W -> result Exc StateDict * W;
  load_state_dict : Net -> StateDict -> W -> result Exc unit * W
}.

(** The library a delegated call belongs to, after the module it is
    imported from. *)
Inductive library : Type :=
  | melloddy_tuner
  | sparsechem
  | torch.

Section Effects.
Context `{Lib}.

(** One delegated call, with the arguments the module passes. *)
Inductive event : Type :=
  | call_read_input_file (file : string)
  | call_do_prepare_prediction_online (args : Namespace) (df : DataFrame)
  | call_load_results (filename : string) (two_heads : bool)
  | call_fold_transform_inputs (data : SparseMatrix) (folding_size transform : pyval)
  | call_load_check_sparse (filename : option string) (shape : Z * pyval)
  | call_ClassRegrSparseDataset (x y_class y_regr : SparseMatrix)
  | call_DataLoader (dataset : Dataset) (batch_size num_workers : Z) (pin_memory : bool)
  | call_SparseFFN (conf : Conf)
  | call_to (net : Net) (device : string)
  | call_torch_device (device : string)
  | call_torch_load (f : Path) (map_location : TorchDevice)
  | call_load_state_dict (net : Net) (state : StateDict)
  | call_predict (net : Net) (loader : Loader) (dev : string) (dropout : Z)
      (progress : bool) (y_cat_columns : option pyval).

Definition provider (e : event) : library :=
  match e with
  | call_read_input_file _ => melloddy_tuner
  | call_do_prepare_prediction_online _ _ => melloddy_tuner
  | call_load_results _ _ => sparsechem
  | call_fold_transform_inputs _ _ _ => sparsechem
  | call_load_check_sparse _ _ => sparsechem
  | call_ClassRegrSparseDataset _ _ _ => sparsechem
  | call_DataLoader _ _ _ _ => torch
  | call_SparseFFN _ => sparsechem
  | call_to _ _ => torch
  | call_torch_device _ => torch
  | call_torch_load _ _ => torch
  | call_load_state_dict _ _ => torch
  | call_predict _ _ _ _ _ _ => sparsechem
  end.

(** The exceptions that can leave the module: the three it raises itself,
    the interpreter's [AttributeError] for an attribute that is not there,
    and whatever a delegated call raised. *)
Inductive error : Type :=
  | ModelUnknownError (msg : string)
  | NotADirectoryError (msg : string)
  | FileNotFoundError (p : Path)
  | AttributeError (attr : string)
  | LibraryError (e : Exc).

(** What a method leaves behind: its result, the object it ran on (Python
    keeps the attribute writes made before an exception), the world and the
    delegated calls it made, oldest first. *)
Record Outcome (O A : Type) : Type := mkOutcome {
  res : result error A;
  obj : O;
  world : W;
  events : list event
}.
Arguments mkOutcome {O A}.
Arguments res {O A}.
Arguments obj {O A}.
Arguments world {O A}.
Arguments events {O A}.

Definition Eff (O A : Type) : Type := O -> W -> Outcome O A.

Definition ret {O A} (a : A) : Eff O A :=
  fun o w => mkOutcome (Ok a) o w [].

Definition raise {O A} (e : error) : Eff O A :=
  fun o w => mkOutcome (Raise e) o w [].

Definition bind {O A B} (m : Eff O A) (k : A -> Eff O B) : Eff O B :=
  fun o w =>
    match m o w with
    | mkOutcome (Raise e) o1 w1 ev1 => mkOutcome (Raise e) o1 w1 ev1
    | mkOutcome (Ok a) o1 w1 ev1 =>
        match k a o1 w1 with
        | mkOutcome r o2 w2 ev2 => mkOutcome r o2 w2 (ev1 ++ ev2)
        end
    end.

Definition get {O} : Eff O O := fun o w => mkOutcome (Ok o) o w [].

Definition modify {O} (f : O -> O) : Eff O unit :=
  fun o w => mkOutcome (Ok tt) (f o) w [].

(** A delegated call: logged, run on the world, its exception wrapped. *)
Definition libcall {O A} (ev : event) (f : W -> result Exc A * W) : Eff O A :=
  fun o w =>
    match f w with
    | (Ok a, w1) => mkOutcome (Ok a) o w1 [ev]
    | (Raise e, w1) => mkOutcome (Raise (LibraryError e)) o w1 [ev]
    end.

(** [getattr(ns, name)] on a namespace. *)
Definition getattr {O} (ns : gmap string pyval) (name : string) : Eff O pyval :=
  match ns !! name with
  | Some v => ret v
  | None => raise (AttributeError name)
  end.
End Effects.

Arguments mkOutcome {_ O A}.
Arguments res {_ O A}.
Arguments obj {_ O A}.
Arguments world {_ O A}.
Arguments events {_ O A}.

Declare Scope eff_scope.
Delimit Scope eff_scope with eff.
Notation "x <- m ;; k" := (bind m (fun x => k))
  (at level 100, m at next level, right associativity) : eff_scope.
Notation "m ;;; k" := (bind m (fun _ => k))
  (at level 100, right associativity) : eff_scope.

(** ** The delegated calls, as the module writes them *)

Section Calls.
Context `{Lib} {O : Type}.

Definition melloddy_tuner_read_input_file (file : string) : Eff O DataFrame :=
  libcall (call_read_input_file file) (read_input_file file).

Definition melloddy_tuner_do_prepare_prediction_online
    (args : Namespace) (df : DataFrame) : Eff O SparseMatrix :=
  libcall (call_do_prepare_prediction_online args df)
          (do_prepare_prediction_online args df).

Definition sparsechem_load_results (filename : string) (two_heads : bool) : Eff O Conf :=
  libcall (call_load_results filename two_heads) (load_results filename two_heads).

Definition sparsechem_fold_transform_inputs
    (data : SparseMatrix) (folding_size transform : pyval) : Eff O SparseMatrix :=
  libcall (call_fold_transform_inputs data folding_size transform)
          (fold_transform_inputs data folding_size transform).

Definition sparsechem_load_check_sparse
    (filename : option string) (shape : Z * pyval) : Eff O SparseMatrix :=
  libcall (call_load_check_sparse filename shape) (load_check_sparse filename shape).

Definition sparsechem_ClassRegrSparseDataset
    (x y_class y_regr : SparseMatrix) : Eff O Dataset :=
  libcall (call_ClassRegrSparseDataset x y_class y_regr)
          (ClassRegrSparseDataset x y_class y_regr).

(** [DataLoader(dataset=d, batch_size=.., num_workers=.., pin_memory=..,
    collate_fn=d.collate)]: the collate function is the data set's own. *)
Definition torch_DataLoader
    (dataset : Dataset) (batch_size num_workers : Z) (pin_memory : bool) : Eff O Loader :=
  libcall (call_DataLoader dataset batch_size num_workers pin_memory)
          (DataLoader dataset batch_size num_workers pin_memory).

Definition sparsechem_SparseFFN (conf : Conf) : Eff O Net :=
  libcall (call_SparseFFN conf) (SparseFFN conf).

Definition module_to (net : Net) (device : string) : Eff O Net :=
  libcall (call_to net device) (net_to net device).

Definition torch_torch_device (device : string) : Eff O TorchDevice :=
  libcall (call_torch_device device) (torch_device device).

Definition torch_torch_load (f : Path) (map_location : TorchDevice) : Eff O StateDict :=
  libcall (call_torch_load f map_location) (torch_load f map_location).

Definition module_load_state_dict (net : Net) (state : StateDict) : Eff O unit :=
  libcall (call_load_state_dict net state) (load_state_dict net state).

Definition sparsechem_predict_call
    (net : Net) (loader : Loader) (dev : string) (dropout : Z) (progress : bool)
    (y_cat_columns : option pyval) : Eff O (Ndarray * Ndarray) :=
  libcall (call_predict net loader dev dropout progress y_cat_columns)
          (sparsechem_predict net loader dev dropout progress y_cat_columns).
End Calls.

(** ** Module constants *)

Definition STRUCTURE_FILE : string := "structure_file".
Definition CONFIG_FILE : string := "config_file".
Definition KEY_FILE : string := "key_file".
Definition RUN_NAME : string := "run_name".
Definition NUMBER_CPU : string := "number_cpu".
Definition REF_HASH : string := "ref_hash".
Definition NON_INTERACTIVE : string := "non_interactive".
Definition PREPARATION_RUN_NAME : string := "mms".

(** ** class Model *)

Module Model.
Section Model.
Context `{Lib}.
Local Open Scope eff_scope.

(** The attributes of a handle.  [_conf], [_model] and [_device] do not exist
    until they are first assigned ([hasattr] is false): [None].  A stored
    configuration is a SimpleNamespace and a stored network a
    [torch.nn.Module]; both are truthy objects, so [not self._conf] and
    [not self._model] are false once the attribute exists. *)
Record t : Type := mk {
  path : Path;
  _conf_path : Path;
  _model_path : Path;
  _conf : option Conf;
  _model : option Net;
  _device : option string
}.

Definition set_conf (c : Conf) (self : t) : t :=
  mk (path self) (_conf_path self) (_model_path self) (Some c) (_model self) (_device self).
Definition set_model (n : Net) (self : t) : t :=
  mk (path self) (_conf_path self) (_model_path self) (_conf self) (Some n) (_device self).
Definition set_device (d : string) (self : t) : t :=
  mk (path self) (_conf_path self) (_model_path self) (_conf self) (_model self) (Some d).

(** The handle [Model(path)] creates: the three paths, nothing loaded. *)
Definition unloaded (p : Path) : t :=
  mk p (joinpath p "hyperparameters.json") (joinpath p "model.pth") None None None.

(** [Model(path)]: the two file checks, in this order. *)
Definition __init__ (p : Path) (w : W) : result error t :=
  let self := unloaded p in
  if negb (os_path_isfile w (_conf_path self)) then
    Raise (FileNotFoundError (_conf_path self))
  else if negb (os_path_isfile w (_model_path self)) then
    Raise (FileNotFoundError (_model_path self))
  else Ok self.

(** The property [conf]. *)
Definition conf : Eff t Conf :=
  self <- get ;;
  match _conf self with
  | Some c => ret c
  | None =>
      c <- sparsechem_load_results (path_str (_conf_path self)) true ;;
      modify (set_conf c) ;;;
      ret c
  end.

Definition class_output_size : Eff t pyval :=
  c <- conf ;; getattr c "class_output_size".

Definition regr_output_size : Eff t pyval :=
  c <- conf ;; getattr c "regr_output_size".

Definition fold_inputs : Eff t pyval :=
  c <- conf ;; getattr c "fold_inputs".

Definition input_transform : Eff t pyval :=
  c <- conf ;; getattr c "input_transform".

(** [load(device)]; the default of [device] is ["cpu"].  The method reads
    [self._device] back right after assigning [device] to it: [device] below. *)
Definition load (device : string) : Eff t unit :=
  self <- get ;;
  match _model self with
  | Some _ => ret tt
  | None =>
      modify (set_device device) ;;;
      c <- conf ;;
      net <- sparsechem_SparseFFN c ;;
      net <- module_to net device ;;
      modify (set_model net) ;;;
      self <- get ;;
      dev <- torch_torch_device device ;;
      state <- torch_torch_load (_model_path self) dev ;;
      module_load_state_dict net state
  end.

(** [predict(data)]: reads [self._model] and [self._device]. *)
Definition predict (data : Loader) : Eff t (Ndarray * Ndarray) :=
  self <- get ;;
  match _model self with
  | None => raise (AttributeError "_model")
  | Some net =>
      match _device self with
      | None => raise (AttributeError "_device")
      | Some dev => sparsechem_predict_call net data dev 0 false None
      end
  end.
End Model.
End Model.

(** ** class PredictionSystem *)

Module PredictionSystem.
Section PredictionSystem.
Context `{Lib}.
Local Open Scope eff_scope.

Record t : Type := mk {
  _device : string;
  _tuner_encryption_key : Path;
  _tuner_configuration_parameters : Path;
  _models : gmap string Model.t
}.

(** The loop [for dirname in os.listdir(model_folder)]. *)
Fixpoint register (model_folder : Path) (names : list string)
    (models : gmap string Model.t) (w : W) : result error (gmap string Model.t) :=
  match names with
  | [] => Ok models
  | dirname :: rest =>
      match Model.__init__ (joinpath model_folder dirname) w with
      | Raise e => Raise e
      | Ok m => register model_folder rest (<[dirname := m]> models) w
      end
  end.

(** [PredictionSystem(model_folder, encryption_key, preparation_parameters,
    device)]; the default of [device] is ["cpu"]. *)
Definition __init__ (model_folder encryption_key preparation_parameters : Path)
    (device : string) (w : W) : result error t :=
  if negb (os_path_isdir w model_folder)
  then Raise (NotADirectoryError (path_str model_folder ++ " is not a directory"))
  else
    match os_listdir w model_folder with
    | Raise e => Raise (LibraryError e)
    | Ok names =>
        match register model_folder names ∅ w with
        | Raise e => Raise e
        | Ok models => Ok (mk device encryption_key preparation_parameters models)
        end
    end.

Definition _build_data_preparation_args (self : t) (data_file : Path) : Namespace :=
  let namespace : gmap string pyval := ∅ in
  let namespace := <[STRUCTURE_FILE := VStr (path_str data_file)]> namespace in
  let namespace :=
    <[CONFIG_FILE := VStr (path_str (_tuner_configuration_parameters self))]> namespace in
  let namespace := <[KEY_FILE := VStr (path_str (_tuner_encryption_key self))]> namespace in
  let namespace := <[RUN_NAME := VStr PREPARATION_RUN_NAME]> namespace in
  let namespace := <[NUMBER_CPU := VInt 1]> namespace in
  let namespace := <[NON_INTERACTIVE := VBool true]> namespace in
  let namespace := <[REF_HASH := VNone]> namespace in
  namespace.

Definition _get_model (model_name : string) : Eff t Model.t :=
  self <- get ;;
  match _models self !! model_name with
  | Some model => ret model
  | None => raise (ModelUnknownError "Requested model does not exist")
  end.

(** The handle returned by [_get_model] is the object held by the registry:
    what a method does to it is seen through [self._models[model_name]]. *)
Definition store (model_name : string) (model : Model.t) (self : t) : t :=
  mk (_device self) (_tuner_encryption_key self) (_tuner_configuration_parameters self)
     (<[model_name := model]> (_models self)).

Definition on_handle {A} (model_name : string) (model : Model.t)
    (body : Eff Model.t A) : Eff t A :=
  fun self w =>
    match body model w with
    | mkOutcome r model1 w1 ev1 => mkOutcome r (store model_name model1 self) w1 ev1
    end.

Definition predict (model_name : string) (smiles : Path) : Eff t (Ndarray * Ndarray) :=
  model <- _get_model model_name ;;
  self <- get ;;
  on_handle model_name model (
    df <- melloddy_tuner_read_input_file (path_str smiles) ;;
    data <- melloddy_tuner_do_prepare_prediction_online
              (_build_data_preparation_args self smiles) df ;;
    folding_size <- Model.fold_inputs ;;
    transform <- Model.input_transform ;;
    data <- sparsechem_fold_transform_inputs data folding_size transform ;;
    class_output_size <- Model.class_output_size ;;
    y_class <- sparsechem_load_check_sparse None (shape0 data, class_output_size) ;;
    regr_output_size <- Model.regr_output_size ;;
    y_regr <- sparsechem_load_check_sparse None (shape0 data, regr_output_size) ;;
    dataset_te <- sparsechem_ClassRegrSparseDataset data y_class y_regr ;;
    loader <- torch_DataLoader dataset_te 4000 4 true ;;
    Model.load (_device self) ;;;
    Model.predict loader).
End PredictionSystem.
End PredictionSystem.

(** ** Reasoning about runs

    [wp m Q o w] says that the outcome of running [m] on the object [o] in
    the world [w] satisfies [Q].  The rules below walk through a method one
    statement at a time; a delegated call splits into the run where it
    returns and the run where it raises. *)

Section Wp.
Context `{Lib} {O : Type}.

Definition wp {A} (m : Eff O A) (Q : Outcome O A -> Prop) (o : O) (w : W) : Prop :=
  Q (m o w).

Definition add_events {A} (ev : list event) (r : Outcome O A) : Outcome O A :=
  mkOutcome (res r) (obj r) (world r) (ev ++ events r).

Definition bind_post {A B} (k : A -> Eff O B) (Q : Outcome O B -> Prop)
    (r : Outcome O A) : Prop :=
  match res r with
  | Ok a => wp (k a) (fun r' => Q (add_events (events r) r')) (obj r) (world r)
  | Raise e => Q (mkOutcome (Raise e) (obj r) (world r) (events r))
  end.

End Wp.

(** ** A small deployment to run the module on

    Two well-formed model folders [models/a] and [models/b], a folder
    [broken/c] without [model.pth], a three-line structure file, and libraries
    that only work on the cpu.  The world is a clock that every delegated call
    advances; a configuration read records the time it was read at. *)

Module Toy.
Definition files : list string :=
  ["models/a/hyperparameters.json"; "models/a/model.pth";
   "models/b/hyperparameters.json"; "models/b/model.pth";
   "broken/c/hyperparameters.json";
   "smiles.csv"; "key.json"; "params.json"].

Definition listdir (p : string) : result string (list string) :=
  if bool_decide (p = "models") then Ok ["a"; "b"]
  else if bool_decide (p = "broken") then Ok ["c"]
  else Raise "cannot list".

Definition conf_at (w : nat) : Conf :=
  <["class_output_size" := VInt 5]>
  (<["regr_output_size" := VInt 2]>
  (<["fold_inputs" := VInt 1024]>
  (<["input_transform" := VStr "binarize"]>
  (<["read_at" := VInt (Z.of_nat w)]> ∅)))).

Definition tick {A} (r : result string A) (w : nat) : result string A * nat :=
  (r, S w).

Definition matrix : Type := Z * Z.
Definition net : Type := Z * Z * string.

Definition ffn (c : Conf) : result string net :=
  match c !! "class_output_size", c !! "regr_output_size" with
  | Some (VInt k), Some (VInt r) => Ok (k, r, "cpu")
  | _, _ => Raise "bad configuration"
  end.

Definition predict (n : net) (l : matrix * matrix * matrix)
    : result string (matrix * matrix) :=
  let '(k, r, _) := n in
  let '(x, yc, yr) := l in
  if bool_decide (yc.2 = k /\ yr.2 = r) then Ok ((x.1, k), (x.1, r))
  else Raise "size mismatch".

Definition lib : Lib := {|
  W := nat;
  Path := string;
  Exc := string;
  DataFrame := list string;
  SparseMatrix := matrix;
  Dataset := matrix * matrix * matrix;
  Loader := matrix * matrix * matrix;
  Net := net;
  TorchDevice := string;
  StateDict := unit;
  Ndarray := matrix;
  joinpath p name := p ++ "/" ++ name;
  path_str p := p;
  os_path_isdir _ p := bool_decide (p ∈ ["models"; "broken"; "models/a"; "models/b"; "broken/c"]);
  os_path_isfile _ p := bool_decide (p ∈ files);
  os_listdir _ p := listdir p;
  read_input_file f :=
    tick (if bool_decide (f = "smiles.csv") then Ok ["CCO"; "c1ccccc1"; "CC(=O)O"]
          else Raise "no such file");
  do_prepare_prediction_online args df :=
    tick (match args !! KEY_FILE with
          | Some (VStr _) => Ok (Z.of_nat (length df), 32000)
          | _ => Raise "no key"
          end);
  load_results f _ w :=
    tick (if bool_decide (f ∈ files) then Ok (conf_at w) else Raise "no such file") w;
  fold_transform_inputs x folding_size _ :=
    tick (match folding_size with
          | VInt k => Ok (x.1, k)
          | _ => Raise "bad folding size"
          end);
  load_check_sparse filename shape :=
    tick (match filename, shape.2 with
          | None, VInt k => Ok (shape.1, k)
          | _, _ => Raise "bad shape"
          end);
  ClassRegrSparseDataset x y_class y_regr :=
    tick (if bool_decide (x.1 = y_class.1 /\ x.1 = y_regr.1) then Ok (x, y_class, y_regr)
          else Raise "row mismatch");
  SparseFFN c := tick (ffn c);
  sparsechem_predict n l _ _ _ _ := tick (predict n l);
  shape0 x := x.1;
  ndarray_shape a := a;
  DataLoader d _ _ _ := tick (Ok d);
  net_to n device :=
    tick (if bool_decide (device = "cpu") then Ok (n.1, device)
          else Raise "CUDA is not available");
  torch_device device := tick (Ok device);
  torch_load f _ :=
    tick (if bool_decide (f ∈ files) then Ok tt else Raise "no such file");
  load_state_dict _ _ := tick (Ok tt)
|}.
End Toy.

(** ** Construction of the registry *)

Section Construction.
Context `{Lib}.

(** Both files of the model folder [p] are there. *)
Definition well_formed (w : W) (p : Path) : bool :=
  os_path_isfile w (Model._conf_path (Model.unloaded p)) &&
  os_path_isfile w (Model._model_path (Model.unloaded p)).

End Construction.


(** ** The phases of a prediction *)

Inductive phase : Type :=
  | reading
  | preparation
  | folding
  | inference.

Section Phases.
Context `{Lib}.

Definition phase_of (e : event) : option phase :=
  match e with
  | call_read_input_file _ => Some reading
  | call_do_prepare_prediction_online _ _ => Some preparation
  | call_fold_transform_inputs _ _ _ => Some folding
  | call_predict _ _ _ _ _ _ => Some inference
  | _ => None
  end.

(** The phases a run went through, in the order it went through them. *)
Definition phases (evs : list event) : list phase := omap phase_of evs.

Definition pipeline : list phase := [reading; preparation; folding; inference].
End Phases.

(** ** Errors the module raises with a [raise] statement *)

Definition raised_by_module `{Lib} (e : error) : bool :=
  match e with
  | ModelUnknownError _ | NotADirectoryError _ | FileNotFoundError _ => true
  | AttributeError _ | LibraryError _ => false
  end.

(** ** Operations on a constructed system *)

Section Operations.
Context `{Lib}.
Local Open Scope eff_scope.

(** A method called on the handle of a registered model, as in
    [self._get_model(name).method(...)]. *)
Definition on_registered {A} (model_name : string) (body : Eff Model.t A)
    : Eff PredictionSystem.t A :=
  model <- PredictionSystem._get_model model_name ;;
  PredictionSystem.on_handle model_name model body.

(** The four properties that read one attribute of the configuration. *)
Inductive property : Type :=
  | prop_class_output_size
  | prop_regr_output_size
  | prop_fold_inputs
  | prop_input_transform.

Definition read_property (p : property) : Eff Model.t pyval :=
  match p with
  | prop_class_output_size => Model.class_output_size
  | prop_regr_output_size => Model.regr_output_size
  | prop_fold_inputs => Model.fold_inputs
  | prop_input_transform => Model.input_transform
  end.

Inductive operation : Type :=
  | Predict (model_name : string) (smiles : Path)
  | GetModel (model_name : string)
  | Configuration (model_name : string)
  | ReadProperty (model_name : string) (p : property)
  | LoadModel (model_name : string) (device : string)
  | Infer (model_name : string) (data : Loader).

Definition perform (op : operation) : Eff PredictionSystem.t unit :=
  match op with
  | Predict model_name smiles => PredictionSystem.predict model_name smiles ;;; ret tt
  | GetModel model_name => PredictionSystem._get_model model_name ;;; ret tt
  | Configuration model_name => on_registered model_name Model.conf ;;; ret tt
  | ReadProperty model_name p => on_registered model_name (read_property p) ;;; ret tt
  | LoadModel model_name device => on_registered model_name (Model.load device)
  | Infer model_name data => on_registered model_name (Model.predict data) ;;; ret tt
  end.

(** A caller performing operations one after the other, going on after an
    exception. *)
Fixpoint perform_all (ops : list operation) (self : PredictionSystem.t) (w : W)
    : PredictionSystem.t * W :=
  match ops with
  | [] => (self, w)
  | op :: rest =>
      let r := perform op self w in
      perform_all rest (obj r) (world r)
  end.

(** What may differ between a handle and the same handle later. *)
Definition model_frame (m m' : Model.t) : Prop :=
  Model.path m' = Model.path m /\
  Model._conf_path m' = Model._conf_path m /\
  Model._model_path m' = Model._model_path m /\
  (forall c, Model._conf m = Some c -> Model._conf m' = Some c) /\
  (forall n, Model._model m = Some n ->
     Model._model m' = Some n /\ Model._device m' = Model._device m).

(** What may differ between a system and the same system later. *)
Definition system_frame (s s' : PredictionSystem.t) : Prop :=
  PredictionSystem._device s' = PredictionSystem._device s /\
  PredictionSystem._tuner_encryption_key s' = PredictionSystem._tuner_encryption_key s /\
  PredictionSystem._tuner_configuration_parameters s' =
    PredictionSystem._tuner_configuration_parameters s /\
  dom (PredictionSystem._models s') = dom (PredictionSystem._models s) /\
  (forall name m, PredictionSystem._models s !! name = Some m ->
     exists m', PredictionSystem._models s' !! name = Some m' /\ model_frame m m').

(** [Model.load] called for each device of a list, in order. *)
Fixpoint load_each (devices : list string) : Eff Model.t unit :=
  match devices with
  | [] => ret tt
  | d :: rest => Model.load d ;;; load_each rest
  end.
End Operations.

(** The system built on the [models] folder of the small deployment. *)
Definition toy_system : @PredictionSystem.t Toy.lib :=
  @PredictionSystem.mk Toy.lib "cpu" "key.json" "params.json"
    (<["b" := @Model.unloaded Toy.lib "models/b"]>
       (<["a" := @Model.unloaded Toy.lib "models/a"]> ∅)).

(** The model an operation is about. *)
Definition target `{Lib} (op : operation) : string :=
  match op with
  | Predict model_name _ | GetModel model_name | Configuration model_name
  | ReadProperty model_name _ | LoadModel model_name _ | Infer model_name _ => model_name
  end.

(** ** Names of the properties *)

(** The attribute of the configuration that a property reads. *)
Definition property_name (p : property) : string :=
  match p with
  | prop_class_output_size => "class_output_size"
  | prop_regr_output_size => "regr_output_size"
  | prop_fold_inputs => "fold_inputs"
  | prop_input_transform => "input_transform"
  end.

(** The attributes whose absence the module can run into: the four it reads
    from a configuration and the two that [Model.predict] reads from the
    handle. *)
Definition read_attributes : list string :=
  ["fold_inputs"; "input_transform"; "class_output_size"; "regr_output_size";
   "_model"; "_device"].

(** ** Kinds of delegated calls *)

Section Kinds.
Context `{Lib}.

(** A read of a hyperparameters file. *)
Definition is_configuration_read (e : event) : bool :=
  match e with
  | call_load_results _ _ => true
  | _ => false
  end.

(** The calls that [conf] and [load] make: reading the configuration,
    building the network, moving it to the device, reading and loading the
    weights. *)
Definition is_loading_call (e : event) : bool :=
  match e with
  | call_load_results _ _ | call_SparseFFN _ | call_to _ _ | call_torch_device _
  | call_torch_load _ _ | call_load_state_dict _ _ => true
  | _ => false
  end.

(** A handle that holds a network holds a device too: [load] assigns
    [_device] before [_model]. *)
Definition device_known (m : Model.t) : Prop :=
  forall net, Model._model m = Some net -> exists d, Model._device m = Some d.

Definition all_device_known (s : PredictionSystem.t) : Prop :=
  forall name m, PredictionSystem._models s !! name = Some m -> device_known m.

End Kinds.

(** ** A deployment with faults

    The small deployment again, but the configuration of [models/a] has no
    [input_transform] and the weights file of [models/b] cannot be read. *)

Module Faulty.
Definition conf_without_transform : Conf :=
  <["class_output_size" := VInt 5]>
  (<["regr_output_size" := VInt 2]>
  (<["fold_inputs" := VInt 1024]> ∅)).

Definition lib : Lib := {|
  W := nat;
  Path := string;
  Exc := string;
  DataFrame := list string;
  SparseMatrix := Toy.matrix;
  Dataset := Toy.matrix * Toy.matrix * Toy.matrix;
  Loader := Toy.matrix * Toy.matrix * Toy.matrix;
  Net := Toy.net;
  TorchDevice := string;
  StateDict := unit;
  Ndarray := Toy.matrix;
  joinpath := @joinpath Toy.lib;
  path_str := @path_str Toy.lib;
  os_path_isdir := @os_path_isdir Toy.lib;
  os_path_isfile := @os_path_isfile Toy.lib;
  os_listdir := @os_listdir Toy.lib;
  read_input_file := @read_input_file Toy.lib;
  do_prepare_prediction_online := @do_prepare_prediction_online Toy.lib;
  load_results f two_heads w :=
    if bool_decide (f = "models/a/hyperparameters.json")
    then Toy.tick (Ok conf_without_transform) w
    else @load_results Toy.lib f two_heads w;
  fold_transform_inputs := @fold_transform_inputs Toy.lib;
  load_check_sparse := @load_check_sparse Toy.lib;
  ClassRegrSparseDataset := @ClassRegrSparseDataset Toy.lib;
  SparseFFN := @SparseFFN Toy.lib;
  sparsechem_predict := @sparsechem_predict Toy.lib;
  shape0 := @shape0 Toy.lib;
  ndarray_shape := @ndarray_shape Toy.lib;
  DataLoader := @DataLoader Toy.lib;
  net_to := @net_to Toy.lib;
  torch_device := @torch_device Toy.lib;
  torch_load f dev :=
    if bool_decide (f = "models/b/model.pth")
    then Toy.tick (Raise "invalid load key")
    else @torch_load Toy.lib f dev;
  load_state_dict := @load_state_dict Toy.lib
|}.
End Faulty.

(** The system built on the [models] folder of the deployment with faults. *)
Definition faulty_system : @PredictionSystem.t Faulty.lib :=
  @PredictionSystem.mk Faulty.lib "cpu" "key.json" "params.json"
    (<["b" := @Model.unloaded Faulty.lib "models/b"]>
       (<["a" := @Model.unloaded Faulty.lib "models/a"]> ∅)).

(** ** A deployment whose tuner leaves structures out

    The small deployment again, but the structure file has a line that is not
    a valid structure, and the tuner prepares a row for the valid ones only. *)

Module Dropping.
Definition standardisable (smiles : string) : bool :=
  negb (bool_decide (smiles = "C(C)(C)(C)(C)C")).

Definition lib : Lib := {|
  W := nat;
  Path := string;
  Exc := string;
  DataFrame := list string;
  SparseMatrix := Toy.matrix;
  Dataset := Toy.matrix * Toy.matrix * Toy.matrix;
  Loader := Toy.matrix * Toy.matrix * Toy.matrix;
  Net := Toy.net;
  TorchDevice := string;
  StateDict := unit;
  Ndarray := Toy.matrix;
  joinpath := @joinpath Toy.lib;
  path_str := @path_str Toy.lib;
  os_path_isdir := @os_path_isdir Toy.lib;
  os_path_isfile := @os_path_isfile Toy.lib;
  os_listdir := @os_listdir Toy.lib;
  read_input_file f :=
    Toy.tick (if bool_decide (f = "smiles.csv")
              then Ok ["CCO"; "C(C)(C)(C)(C)C"; "CC(=O)O"]
              else Raise "no such file");
  do_prepare_prediction_online args df :=
    Toy.tick (match args !! KEY_FILE with
              | Some (VStr _) =>
                  Ok (Z.of_nat (length (List.filter standardisable df)), 32000)
              | _ => Raise "no key"
              end);
  load_results := @load_results Toy.lib;
  fold_transform_inputs := @fold_transform_inputs Toy.lib;
  load_check_sparse := @load_check_sparse Toy.lib;
  ClassRegrSparseDataset := @ClassRegrSparseDataset Toy.lib;
  SparseFFN := @SparseFFN Toy.lib;
  sparsechem_predict := @sparsechem_predict Toy.lib;
  shape0 := @shape0 Toy.lib;
  ndarray_shape := @ndarray_shape Toy.lib;
  DataLoader := @DataLoader Toy.lib;
  net_to := @net_to Toy.lib;
  torch_device := @torch_device Toy.lib;
  torch_load := @torch_load Toy.lib;
  load_state_dict := @load_state_dict Toy.lib
|}.
End Dropping.

(** * Proofs *)

Section WpRules.
Context `{Lib} {O : Type}.

Lemma wp_bind {A B} (m : Eff O A) (k : A -> Eff O B) Q o w :
  wp m (bind_post k Q) o w -> wp (bind m k) Q o w.
Proof.
  unfold wp, bind_post, bind, add_events.
  destruct (m o w) as [[a|e] o1 w1 ev1]; simpl; [|tauto].
  unfold wp. destruct (k a o1 w1); simpl; tauto.
Qed.

Lemma wp_ret {A} (a : A) (Q : Outcome O A -> Prop) o w :
  Q (mkOutcome (Ok a) o w []) -> wp (ret a) Q o w.
Proof. done. Qed.

Lemma wp_raise {A} e (Q : Outcome O A -> Prop) o w :
  Q (mkOutcome (Raise e) o w []) -> wp (raise e) Q o w.
Proof. done. Qed.

Lemma wp_get (Q : Outcome O O -> Prop) o w :
  Q (mkOutcome (Ok o) o w []) -> wp get Q o w.
Proof. done. Qed.

Lemma wp_modify f (Q : Outcome O unit -> Prop) o w :
  Q (mkOutcome (Ok tt) (f o) w []) -> wp (modify f) Q o w.
Proof. done. Qed.

Lemma wp_libcall {A} ev (f : W -> result Exc A * W) (Q : Outcome O A -> Prop) o w :
  (forall a w1, f w = (Ok a, w1) -> Q (mkOutcome (Ok a) o w1 [ev])) ->
  (forall e w1, f w = (Raise e, w1) -> Q (mkOutcome (Raise (LibraryError e)) o w1 [ev])) ->
  wp (libcall ev f) Q o w.
Proof.
  intros Hok Herr. unfold wp, libcall.
  destruct (f w) as [[a|e] w1] eqn:E; eauto.
Qed.

Lemma wp_getattr ns name (Q : Outcome O pyval -> Prop) o w :
  (forall v, ns !! name = Some v -> Q (mkOutcome (Ok v) o w [])) ->
  (ns !! name = None -> Q (mkOutcome (Raise (AttributeError name)) o w [])) ->
  wp (getattr ns name) Q o w.
Proof.
  intros Hsome Hnone. unfold wp, getattr.
  destruct (ns !! name) as [v|] eqn:E; eauto.
Qed.
End WpRules.

Lemma wp_on_handle `{Lib} {A} name model (body : Eff Model.t A)
    (Q : Outcome PredictionSystem.t A -> Prop) self w :
  wp body (fun r => Q (mkOutcome (res r) (PredictionSystem.store name (obj r) self)
                                 (world r) (events r))) model w ->
  wp (PredictionSystem.on_handle name model body) Q self w.
Proof.
  unfold wp, PredictionSystem.on_handle. by destruct (body model w).
Qed.

Create HintDb calls.
Create HintDb methods.

#[global] Hint Unfold
  melloddy_tuner_read_input_file melloddy_tuner_do_prepare_prediction_online
  sparsechem_load_results sparsechem_fold_transform_inputs
  sparsechem_load_check_sparse sparsechem_ClassRegrSparseDataset torch_DataLoader
  sparsechem_SparseFFN module_to torch_torch_device torch_torch_load
  module_load_state_dict sparsechem_predict_call : calls.

#[global] Hint Unfold
  Model.conf Model.class_output_size Model.regr_output_size Model.fold_inputs
  Model.input_transform Model.load Model.predict : methods.

(** One statement of a run. *)
Ltac wp_step :=
  lazymatch goal with
  | |- wp (bind _ _) _ _ _ => apply wp_bind
  | |- wp (ret _) _ _ _ => apply wp_ret
  | |- wp (raise _) _ _ _ => apply wp_raise
  | |- wp get _ _ _ => apply wp_get
  | |- wp (modify _) _ _ _ => apply wp_modify
  | |- wp (libcall _ _) _ _ _ => apply wp_libcall; intros ? ? ?
  | |- wp (getattr _ _) _ _ _ => apply wp_getattr; [intros ? ? | intros ?]
  | |- wp (PredictionSystem.on_handle _ _ _) _ _ _ => apply wp_on_handle
  | |- wp (match ?x with Some _ => _ | None => _ end) _ _ _ =>
      first [ match goal with Hx : x = _ |- _ => rewrite Hx end
            | let E := fresh "E" in destruct x eqn:E ]
  | |- bind_post _ _ _ => unfold bind_post at 1
  | |- wp _ _ _ _ => progress (autounfold with calls methods)
  end.

Ltac wp_simpl :=
  cbn [res obj world events add_events app
       Model.path Model._conf_path Model._model_path
       Model._conf Model._model Model._device
       Model.set_conf Model.set_model Model.set_device].

Ltac wp_run := repeat (wp_step; wp_simpl); unfold add_events; wp_simpl.

(** Membership in an explicit list of calls. *)
Ltac in_list :=
  solve [repeat first [apply list_elem_of_here | apply list_elem_of_further]].

(** Case analysis on a membership in an explicit list of calls: what is left
    are the calls of the same kind. *)
Ltac in_list_inv Hin :=
  repeat (apply elem_of_cons in Hin as [Hin|Hin]; [try discriminate Hin |]);
  try (by apply elem_of_nil in Hin).

(** Turn a statement about an outcome into a [wp] goal. *)
Ltac wp_start m o w :=
  pattern (m o w);
  lazymatch goal with
  | |- ?Q (m o w) => change (wp m Q o w)
  end.

(** ** Construction of the registry: lemmas *)

Section ConstructionFacts.
Context `{Lib}.

Lemma Model_init_ok p w :
  well_formed w p = true -> Model.__init__ p w = Ok (Model.unloaded p).
Proof.
  unfold well_formed, Model.__init__. intros [-> ->]%andb_prop. done.
Qed.

Lemma Model_init_raise p w :
  well_formed w p = false ->
  exists q, Model.__init__ p w = Raise (FileNotFoundError q) /\
            os_path_isfile w q = false /\
            (q = joinpath p "hyperparameters.json" \/ q = joinpath p "model.pth").
Proof.
  unfold well_formed, Model.__init__. intros Hwf.
  destruct (os_path_isfile w (Model._conf_path (Model.unloaded p))) eqn:E1; simpl in *.
  - rewrite Hwf. simpl. eauto 6.
  - eauto 6.
Qed.

Lemma Model_init_inv p w m :
  Model.__init__ p w = Ok m -> m = Model.unloaded p /\ well_formed w p = true.
Proof.
  destruct (well_formed w p) eqn:E.
  - rewrite (Model_init_ok _ _ E). by intros [= <-].
  - destruct (Model_init_raise _ _ E) as (q & -> & _). done.
Qed.

(** The loop leaves one handle per listed name and keeps the other keys. *)
Lemma register_lookup folder names : forall models w out,
  PredictionSystem.register folder names models w = Ok out ->
  forall name,
    out !! name =
      if decide (name ∈ names) then Some (Model.unloaded (joinpath folder name))
      else models !! name.
Proof.
  induction names as [|d rest IH]; intros models w out Hreg name; simpl in Hreg.
  - injection Hreg as <-. by rewrite decide_False by apply not_elem_of_nil.
  - destruct (Model.__init__ (joinpath folder d) w) as [m|e] eqn:Hinit; [|done].
    apply Model_init_inv in Hinit as [-> _].
    rewrite (IH _ _ _ Hreg name).
    destruct (decide (name ∈ rest)) as [Hin|Hnin].
    + rewrite decide_True; [done | rewrite elem_of_cons; tauto].
    + destruct (decide (name = d)) as [->|Hne].
      * rewrite decide_True by (rewrite elem_of_cons; tauto).
        by rewrite lookup_insert_eq.
      * rewrite decide_False by (rewrite elem_of_cons; tauto).
        by rewrite lookup_insert_ne.
Qed.

(** The loop succeeds exactly when every listed folder is well formed. *)
Lemma register_ok folder names : forall models w,
  forallb (fun d => well_formed w (joinpath folder d)) names = true ->
  exists out, PredictionSystem.register folder names models w = Ok out.
Proof.
  induction names as [|d rest IH]; intros models w Hall; simpl in *; [eauto|].
  apply andb_prop in Hall as [Hd Hrest].
  rewrite (Model_init_ok _ _ Hd). eauto.
Qed.

Lemma register_raise folder names : forall models w,
  forallb (fun d => well_formed w (joinpath folder d)) names = false ->
  exists d q, d ∈ names /\
    PredictionSystem.register folder names models w = Raise (FileNotFoundError q) /\
    os_path_isfile w q = false /\
    (q = joinpath (joinpath folder d) "hyperparameters.json" \/
     q = joinpath (joinpath folder d) "model.pth").
Proof.
  induction names as [|d rest IH]; intros models w Hall; simpl in *; [done|].
  destruct (well_formed w (joinpath folder d)) eqn:Hd; simpl in Hall.
  - rewrite (Model_init_ok _ _ Hd).
    destruct (IH (<[d:=Model.unloaded (joinpath folder d)]> models) w Hall)
      as (d' & q & Hin & -> & Hq).
    exists d', q. split; [rewrite elem_of_cons; tauto | done].
  - destruct (Model_init_raise _ _ Hd) as (q & -> & Hq).
    exists d, q. split; [rewrite elem_of_cons; tauto | done].
Qed.
End ConstructionFacts.


(** ** What the methods leave unchanged *)

Section Frames.
Context `{Lib}.

Lemma model_frame_refl m : model_frame m m.
Proof. unfold model_frame. naive_solver. Qed.

Lemma model_frame_trans m1 m2 m3 :
  model_frame m1 m2 -> model_frame m2 m3 -> model_frame m1 m3.
Proof.
  unfold model_frame.
  intros (Hp & Hc & Hm & Hconf & Hnet) (Hp' & Hc' & Hm' & Hconf' & Hnet').
  split; [congruence|]. split; [congruence|]. split; [congruence|]. split.
  - eauto.
  - intros n Hn. destruct (Hnet n Hn) as [Hn2 Hd].
    destruct (Hnet' n Hn2) as [Hn3 Hd']. split; congruence.
Qed.

Ltac frame_leaf :=
  unfold model_frame; cbn [Model.path Model._conf_path Model._model_path
    Model._conf Model._model Model._device
    Model.set_conf Model.set_model Model.set_device];
  repeat split; intros; congruence.

Lemma conf_frame m w : model_frame m (obj (Model.conf m w)).
Proof.
  wp_start Model.conf m w. wp_run; frame_leaf.
Qed.

Lemma read_property_frame p m w : model_frame m (obj (read_property p m w)).
Proof.
  wp_start (read_property p) m w. destruct p; unfold read_property; wp_run; frame_leaf.
Qed.

Lemma load_frame device m w : model_frame m (obj (Model.load device m w)).
Proof.
  wp_start (Model.load device) m w. wp_run; frame_leaf.
Qed.

Lemma Model_predict_frame data m w : model_frame m (obj (Model.predict data m w)).
Proof.
  wp_start (Model.predict data) m w. wp_run; frame_leaf.
Qed.

Lemma system_frame_refl s : system_frame s s.
Proof.
  unfold system_frame. repeat split; try done.
  intros name m Hm. exists m. split; [done | apply model_frame_refl].
Qed.

Lemma system_frame_trans s1 s2 s3 :
  system_frame s1 s2 -> system_frame s2 s3 -> system_frame s1 s3.
Proof.
  intros (Hd & Hk & Hp & Hdom & Hm) (Hd' & Hk' & Hp' & Hdom' & Hm').
  unfold system_frame. repeat split; try congruence.
  intros name m Hname.
  destruct (Hm name m Hname) as (m2 & Hname2 & Hf).
  destruct (Hm' name m2 Hname2) as (m3 & Hname3 & Hf').
  exists m3. split; [done | by eapply model_frame_trans].
Qed.

(** Writing a later state of a registered handle back into the registry. *)
Lemma store_frame s name m m' :
  PredictionSystem._models s !! name = Some m ->
  model_frame m m' ->
  system_frame s (PredictionSystem.store name m' s).
Proof.
  intros Hname Hf. unfold system_frame, PredictionSystem.store. simpl.
  repeat split; try done.
  - apply dom_insert_lookup_L. by exists m.
  - intros name' m0 Hname'. destruct (decide (name = name')) as [<-|Hne].
    + rewrite lookup_insert_eq. exists m'. split; [done | congruence].
    + rewrite lookup_insert_ne by done. exists m0. split; [done | apply model_frame_refl].
Qed.

Lemma get_model_outcome name s w :
  PredictionSystem._get_model name s w =
    match PredictionSystem._models s !! name with
    | Some m => mkOutcome (Ok m) s w []
    | None => mkOutcome (Raise (ModelUnknownError "Requested model does not exist")) s w []
    end.
Proof.
  unfold PredictionSystem._get_model, bind, get. simpl.
  by destruct (PredictionSystem._models s !! name).
Qed.

Lemma on_registered_frame {A} name (body : Eff Model.t A) s w :
  (forall m w', model_frame m (obj (body m w'))) ->
  system_frame s (obj (on_registered name body s w)).
Proof.
  intros Hbody. unfold on_registered, bind. rewrite get_model_outcome.
  destruct (PredictionSystem._models s !! name) as [m|] eqn:Hname; simpl.
  - unfold PredictionSystem.on_handle. specialize (Hbody m w).
    destruct (body m w) as [r m' w' ev]; simpl in *.
    by eapply store_frame.
  - apply system_frame_refl.
Qed.
End Frames.

Section SystemFrames.
Context `{Lib}.

Lemma bind_ret_obj {O A} (m : Eff O A) o w :
  obj (bind m (fun _ => ret tt) o w) = obj (m o w) /\
  world (bind m (fun _ => ret tt) o w) = world (m o w).
Proof.
  unfold bind, ret. by destruct (m o w) as [[a|e] o1 w1 ev1].
Qed.

Lemma predict_frame name smiles s w :
  system_frame s (obj (PredictionSystem.predict name smiles s w)).
Proof.
  wp_start (PredictionSystem.predict name smiles) s w.
  unfold PredictionSystem.predict, PredictionSystem._get_model.
  wp_run; try apply system_frame_refl;
    (eapply store_frame; [eassumption |
       unfold model_frame;
       cbn [Model.path Model._conf_path Model._model_path
            Model._conf Model._model Model._device
            Model.set_conf Model.set_model Model.set_device];
       repeat split; intros; congruence]).
Qed.

Lemma get_model_frame name s w :
  system_frame s (obj (PredictionSystem._get_model name s w)).
Proof.
  rewrite get_model_outcome.
  destruct (PredictionSystem._models s !! name); apply system_frame_refl.
Qed.

Lemma perform_frame op s w : system_frame s (obj (perform op s w)).
Proof.
  destruct op; unfold perform; rewrite ?(proj1 (bind_ret_obj _ _ _)).
  - apply predict_frame.
  - apply get_model_frame.
  - apply on_registered_frame, conf_frame.
  - apply on_registered_frame, read_property_frame.
  - apply on_registered_frame, load_frame.
  - apply on_registered_frame, Model_predict_frame.
Qed.

Lemma perform_all_frame ops : forall s w, system_frame s (perform_all ops s w).1.
Proof.
  induction ops as [|op rest IH]; intros s w; simpl.
  - apply system_frame_refl.
  - eapply system_frame_trans; [apply perform_frame | apply IH].
Qed.
End SystemFrames.

(** ** The errors of the methods *)

Section Errors.
Context `{Lib}.

Lemma bind_ret_res {O A} (m : Eff O A) o w e :
  res (bind m (fun _ => ret tt) o w) = Raise e <-> res (m o w) = Raise e.
Proof.
  unfold bind, ret. destruct (m o w) as [[a|e'] o1 w1 ev1]; simpl; split; congruence.
Qed.

Ltac error_leaf := first [ by intros [= <-] | by intros [=] ].

Lemma conf_errors m w e :
  res (Model.conf m w) = Raise e -> raised_by_module e = false.
Proof. wp_start Model.conf m w. wp_run; error_leaf. Qed.

Lemma read_property_errors p m w e :
  res (read_property p m w) = Raise e -> raised_by_module e = false.
Proof.
  wp_start (read_property p) m w.
  destruct p; unfold read_property; wp_run; error_leaf.
Qed.

Lemma load_errors device m w e :
  res (Model.load device m w) = Raise e -> raised_by_module e = false.
Proof. wp_start (Model.load device) m w. wp_run; error_leaf. Qed.

Lemma Model_predict_errors data m w e :
  res (Model.predict data m w) = Raise e -> raised_by_module e = false.
Proof. wp_start (Model.predict data) m w. wp_run; error_leaf. Qed.

Lemma on_registered_res {A} name (body : Eff Model.t A) s w :
  res (on_registered name body s w) =
    match PredictionSystem._models s !! name with
    | Some m => res (body m w)
    | None => Raise (ModelUnknownError "Requested model does not exist")
    end.
Proof.
  unfold on_registered, bind. rewrite get_model_outcome.
  destruct (PredictionSystem._models s !! name) as [m|]; simpl; [|done].
  unfold PredictionSystem.on_handle. by destruct (body m w).
Qed.

Lemma on_registered_errors {A} name (body : Eff Model.t A) s w e :
  (forall m w' e', res (body m w') = Raise e' -> raised_by_module e' = false) ->
  res (on_registered name body s w) = Raise e ->
  raised_by_module e = true ->
  e = ModelUnknownError "Requested model does not exist" /\
  PredictionSystem._models s !! name = None.
Proof.
  intros Hbody. rewrite on_registered_res.
  destruct (PredictionSystem._models s !! name) as [m|].
  - intros He%Hbody. congruence.
  - by intros [= <-].
Qed.

Lemma predict_errors name smiles s w e :
  res (PredictionSystem.predict name smiles s w) = Raise e ->
  raised_by_module e = true ->
  e = ModelUnknownError "Requested model does not exist" /\
  PredictionSystem._models s !! name = None.
Proof.
  wp_start (PredictionSystem.predict name smiles) s w.
  unfold PredictionSystem.predict, PredictionSystem._get_model.
  wp_run; first [ by intros [= <-] | by intros [=] ].
Qed.
End Errors.

(** ** Stored configuration, stored network *)

Section Stored.
Context `{Lib}.

Lemma conf_stored m w c :
  Model._conf m = Some c -> Model.conf m w = mkOutcome (Ok c) m w [].
Proof.
  intros Hc. unfold Model.conf, bind, get. simpl. by rewrite Hc.
Qed.

Lemma conf_read m w :
  Model._conf m = None ->
  events (Model.conf m w) = [call_load_results (path_str (Model._conf_path m)) true] /\
  forall c, res (Model.conf m w) = Ok c ->
    (load_results (path_str (Model._conf_path m)) true w).1 = Ok c /\
    Model._conf (obj (Model.conf m w)) = Some c.
Proof.
  intros Hc. wp_start Model.conf m w. wp_run.
  - split; [done|]. intros c [= <-]. split; [|done].
    match goal with Hcall : load_results _ _ _ = _ |- _ => by rewrite Hcall end.
  - split; [done|]. by intros c [=].
Qed.

Lemma load_stored m w device net :
  Model._model m = Some net -> Model.load device m w = mkOutcome (Ok tt) m w [].
Proof.
  intros Hn. unfold Model.load, bind, get. simpl. by rewrite Hn.
Qed.

Lemma load_each_stored devices : forall m w net,
  Model._model m = Some net -> load_each devices m w = mkOutcome (Ok tt) m w [].
Proof.
  induction devices as [|d rest IH]; intros m w net Hn; simpl; [done|].
  unfold bind. rewrite (load_stored _ _ _ _ Hn). by rewrite (IH _ _ _ Hn).
Qed.

Lemma Model_predict_stored m w data net dev :
  Model._model m = Some net -> Model._device m = Some dev ->
  Model.predict data m w = sparsechem_predict_call net data dev 0 false None m w.
Proof.
  intros Hn Hd. unfold Model.predict, bind, get. simpl. rewrite Hn, Hd.
  by destruct (sparsechem_predict_call net data dev 0 false None m w).
Qed.

(** A first load: what it stores and the calls it makes. *)
Lemma load_first m w device :
  Model._model m = None ->
  events (Model.load device m w) <> [] /\
  (res (Model.load device m w) = Ok tt ->
   Model._device (obj (Model.load device m w)) = Some device /\
   exists conf net0 net dev state,
     Model._conf (obj (Model.load device m w)) = Some conf /\
     Model._model (obj (Model.load device m w)) = Some net /\
     call_SparseFFN conf ∈ events (Model.load device m w) /\
     call_to net0 device ∈ events (Model.load device m w) /\
     call_torch_load (Model._model_path m) dev ∈ events (Model.load device m w) /\
     call_load_state_dict net state ∈ events (Model.load device m w)).
Proof.
  intros Hn. wp_start (Model.load device) m w. wp_run;
    (split; [done|]); try (by intros [=]).
  all: intros _; split; [done|]; do 5 eexists.
  all: split; [first [eassumption | reflexivity]|].
  all: split; [reflexivity|].
  all: repeat split; in_list.
Qed.
End Stored.

(** ** The order of the phases *)

Section Order.
Context `{Lib}.

Lemma predict_phases name smiles s w :
  phases (events (PredictionSystem.predict name smiles s w)) `prefix_of` pipeline /\
  (forall a, res (PredictionSystem.predict name smiles s w) = Ok a ->
     phases (events (PredictionSystem.predict name smiles s w)) = pipeline).
Proof.
  wp_start (PredictionSystem.predict name smiles) s w.
  unfold PredictionSystem.predict, PredictionSystem._get_model.
  wp_run; (split; [simpl; by eexists | first [by intros ? [=] | by intros]]).
Qed.
End Order.

(** ** The preparation request *)

Section Preparation.
Context `{Lib}.

Lemma init_fields folder key params device w s :
  PredictionSystem.__init__ folder key params device w = Ok s ->
  PredictionSystem._device s = device /\
  PredictionSystem._tuner_encryption_key s = key /\
  PredictionSystem._tuner_configuration_parameters s = params.
Proof.
  unfold PredictionSystem.__init__.
  destruct (negb (os_path_isdir w folder)); [done|].
  destruct (os_listdir w folder) as [names|e]; [|done].
  destruct (PredictionSystem.register folder names ∅ w) as [models|e]; [|done].
  by intros [= <-].
Qed.

Lemma build_data_preparation_args_explicit s data_file :
  PredictionSystem._build_data_preparation_args s data_file =
    {[ STRUCTURE_FILE := VStr (path_str data_file);
       CONFIG_FILE := VStr (path_str (PredictionSystem._tuner_configuration_parameters s));
       KEY_FILE := VStr (path_str (PredictionSystem._tuner_encryption_key s));
       RUN_NAME := VStr "mms";
       NUMBER_CPU := VInt 1;
       NON_INTERACTIVE := VBool true;
       REF_HASH := VNone ]}.
Proof.
  reflexivity.
Qed.

Lemma predict_prepare_args name smiles s w args df :
  call_do_prepare_prediction_online args df
    ∈ events (PredictionSystem.predict name smiles s w) ->
  args = PredictionSystem._build_data_preparation_args s smiles.
Proof.
  wp_start (PredictionSystem.predict name smiles) s w.
  unfold PredictionSystem.predict, PredictionSystem._get_model.
  wp_run; intros Hin; in_list_inv Hin; by injection Hin as -> ->.
Qed.
End Preparation.

(** ** The folding step *)

Section Folding.
Context `{Lib}.

Lemma predict_fold name smiles s w data folding_size transform :
  call_fold_transform_inputs data folding_size transform
    ∈ events (PredictionSystem.predict name smiles s w) ->
  (exists args df w1 w1',
     call_do_prepare_prediction_online args df
       ∈ events (PredictionSystem.predict name smiles s w) /\
     do_prepare_prediction_online args df w1 = (Ok data, w1')) /\
  exists m0 m conf,
    PredictionSystem._models s !! name = Some m0 /\
    PredictionSystem._models (obj (PredictionSystem.predict name smiles s w)) !! name
      = Some m /\
    Model._conf m = Some conf /\
    conf !! "fold_inputs" = Some folding_size /\
    conf !! "input_transform" = Some transform /\
    (Model._conf m0 = Some conf \/
     Model._conf m0 = None /\
     exists w2 w2',
       load_results (path_str (Model._conf_path m0)) true w2 = (Ok conf, w2')).
Proof.
  wp_start (PredictionSystem.predict name smiles) s w.
  unfold PredictionSystem.predict, PredictionSystem._get_model.
  wp_run; intros Hin; in_list_inv Hin; injection Hin as -> -> ->.
  all: split; [do 4 eexists; split; [in_list | eassumption]|].
  all: do 3 eexists; split; [reflexivity|].
  all: split; [apply lookup_insert_eq|].
  all: wp_simpl.
  all: split; [first [eassumption | reflexivity]|].
  all: split; [eassumption|]; split; [eassumption|].
  all: first [left; eassumption | right; split; [eassumption | do 2 eexists; eassumption]].
Qed.
End Folding.

(** ** A successful prediction *)

Section Success.
Context `{Lib}.

End Success.

(** ** The kinds of errors *)

Section ErrorKinds.
Context `{Lib}.

Lemma conf_error_kind m w e :
  res (Model.conf m w) = Raise e -> exists x, e = LibraryError x.
Proof. wp_start Model.conf m w. wp_run; first [by intros [=] | intros [= <-]; by eexists]. Qed.

Lemma load_error_kind device m w e :
  res (Model.load device m w) = Raise e -> exists x, e = LibraryError x.
Proof.
  wp_start (Model.load device) m w.
  wp_run; first [by intros [=] | intros [= <-]; by eexists].
Qed.

Lemma read_property_error_kind p m w e :
  res (read_property p m w) = Raise e ->
  (exists x, e = LibraryError x) \/
  (e = AttributeError (property_name p) /\
   exists c, Model._conf (obj (read_property p m w)) = Some c /\
             c !! property_name p = None).
Proof.
  wp_start (read_property p) m w.
  destruct p; unfold read_property, property_name; wp_run.
  all: first
    [ by intros [=]
    | intros [= <-]; left; by eexists
    | intros [= <-]; right; split; [reflexivity|]; eexists; split;
      [first [eassumption | reflexivity] | eassumption] ].
Qed.

Lemma read_property_missing p m w c :
  Model._conf m = Some c ->
  c !! property_name p = None ->
  read_property p m w = mkOutcome (Raise (AttributeError (property_name p))) m w [].
Proof.
  intros Hc Hnone.
  destruct p; unfold read_property, Model.class_output_size, Model.regr_output_size,
    Model.fold_inputs, Model.input_transform, bind;
    rewrite (conf_stored _ _ _ Hc); unfold getattr; simpl in *; by rewrite Hnone.
Qed.

Lemma Model_predict_error_kind data m w e :
  res (Model.predict data m w) = Raise e ->
  (exists x, e = LibraryError x) \/
  (e = AttributeError "_model" /\ Model._model m = None /\
   events (Model.predict data m w) = []) \/
  (e = AttributeError "_device" /\ Model._device m = None /\
   events (Model.predict data m w) = []).
Proof.
  wp_start (Model.predict data) m w.
  wp_run; first
    [ by intros [=]
    | intros [= <-]; left; by eexists
    | intros [= <-]; right; left; by repeat split
    | intros [= <-]; right; right; by repeat split ].
Qed.

Lemma Model_predict_unloaded data m w :
  Model._model m = None ->
  Model.predict data m w = mkOutcome (Raise (AttributeError "_model")) m w [].
Proof. intros Hn. unfold Model.predict, bind, get. simpl. by rewrite Hn. Qed.

Lemma predict_error_kind name smiles s w e :
  res (PredictionSystem.predict name smiles s w) = Raise e ->
  (e = ModelUnknownError "Requested model does not exist" /\
   PredictionSystem._models s !! name = None) \/
  (is_Some (PredictionSystem._models s !! name) /\
   ((exists a, e = AttributeError a /\ a ∈ read_attributes) \/
    (exists x, e = LibraryError x))).
Proof.
  wp_start (PredictionSystem.predict name smiles) s w.
  unfold PredictionSystem.predict, PredictionSystem._get_model.
  wp_run; first
    [ by intros [=]
    | intros [= <-]; left; by split
    | intros [= <-]; right; split; [by eexists|]; right; by eexists
    | intros [= <-]; right; split; [by eexists|]; left; eexists; split;
      [reflexivity | unfold read_attributes; in_list] ].
Qed.

Lemma on_registered_error_kind {A} name (body : Eff Model.t A) s w e :
  (forall m w' e', res (body m w') = Raise e' ->
     (exists a, e' = AttributeError a /\ a ∈ read_attributes) \/
     (exists x, e' = LibraryError x)) ->
  res (on_registered name body s w) = Raise e ->
  (e = ModelUnknownError "Requested model does not exist" /\
   PredictionSystem._models s !! name = None) \/
  (is_Some (PredictionSystem._models s !! name) /\
   ((exists a, e = AttributeError a /\ a ∈ read_attributes) \/
    (exists x, e = LibraryError x))).
Proof.
  intros Hbody. rewrite on_registered_res.
  destruct (PredictionSystem._models s !! name) as [m|].
  - intros He%Hbody. right. split; [by eexists | done].
  - intros [= <-]. by left.
Qed.

Lemma perform_lookup_miss op s w :
  PredictionSystem._models s !! target op = None ->
  res (perform op s w) = Raise (ModelUnknownError "Requested model does not exist").
Proof.
  intros Hnone.
  assert (forall A (body : Eff Model.t A),
            res (on_registered (target op) body s w) =
              Raise (ModelUnknownError "Requested model does not exist")) as Hreg.
  { intros A body. by rewrite on_registered_res, Hnone. }
  destruct op; unfold perform; simpl in *.
  - apply bind_ret_res.
    unfold PredictionSystem.predict, bind at 1. by rewrite get_model_outcome, Hnone.
  - apply bind_ret_res. by rewrite get_model_outcome, Hnone.
  - apply bind_ret_res, Hreg.
  - apply bind_ret_res, Hreg.
  - apply Hreg.
  - apply bind_ret_res, Hreg.
Qed.

Lemma perform_error_kind op s w e :
  res (perform op s w) = Raise e ->
  (e = ModelUnknownError "Requested model does not exist" /\
   PredictionSystem._models s !! target op = None) \/
  (is_Some (PredictionSystem._models s !! target op) /\
   ((exists a, e = AttributeError a /\ a ∈ read_attributes) \/
    (exists x, e = LibraryError x))).
Proof.
  destruct op; unfold perform, target; rewrite ?bind_ret_res.
  - apply predict_error_kind.
  - rewrite get_model_outcome.
    destruct (PredictionSystem._models s !! model_name); [done | intros [= <-]; by left].
  - apply on_registered_error_kind. intros m w' e' He'. right. by eapply conf_error_kind.
  - apply on_registered_error_kind. intros m w' e' He'.
    destruct (read_property_error_kind _ _ _ _ He') as [Hlib | [-> _]]; [by right|].
    left. eexists. split; [reflexivity|]. destruct p; unfold read_attributes; in_list.
  - apply on_registered_error_kind. intros m w' e' He'. right. by eapply load_error_kind.
  - apply on_registered_error_kind. intros m w' e' He'.
    destruct (Model_predict_error_kind _ _ _ _ He') as [Hlib | [[-> _] | [-> _]]];
      [by right | left | left]; (eexists; split; [reflexivity | unfold read_attributes; in_list]).
Qed.
End ErrorKinds.

(** * The claims *)

Section Registry.
Context `{Lib}.

(** C4.  After [PredictionSystem.__init__(model_folder, ...)] succeeds, the
    registry maps exactly the entry names that [os.listdir(model_folder)]
    lists, each to a handle whose path is [model_folder / name] (with its two
    file paths under it and nothing loaded); no other model is registered. *)
Theorem C4_registry_after_init folder key params device w self :
  PredictionSystem.__init__ folder key params device w = Ok self ->
  exists names,
    os_listdir w folder = Ok names /\
    (forall name, name ∈ names <-> is_Some (PredictionSystem._models self !! name)) /\
    (forall name m, PredictionSystem._models self !! name = Some m ->
       Model.path m = joinpath folder name /\
       m = Model.unloaded (joinpath folder name)).
Proof.
  unfold PredictionSystem.__init__. intros Hinit.
  destruct (negb (os_path_isdir w folder)); [done|].
  destruct (os_listdir w folder) as [names|e]; [|done].
  destruct (PredictionSystem.register folder names ∅ w) as [models|e] eqn:Hreg; [|done].
  injection Hinit as <-. simpl.
  pose proof (register_lookup _ _ _ _ _ Hreg) as Hlook.
  exists names. split; [done|]. split.
  - intros name. rewrite Hlook. destruct (decide (name ∈ names)) as [Hin|Hnin].
    + split; eauto.
    + rewrite lookup_empty. split; [done | by intros [? ?]].
  - intros name m. rewrite Hlook. destruct (decide (name ∈ names)).
    + by intros [= <-].
    + by rewrite lookup_empty.
Qed.

(** C8.  Construction validates the whole deployment eagerly:
    [__init__] raises [NotADirectoryError] when [model_folder] is not a
    directory, and raises [FileNotFoundError] (for a file that is not there)
    when some listed entry lacks [hyperparameters.json] or [model.pth]: one
    malformed model folder and no registry is built. *)
Theorem C8_eager_validation folder key params device w :
  (os_path_isdir w folder = false ->
   PredictionSystem.__init__ folder key params device w =
     Raise (NotADirectoryError (path_str folder ++ " is not a directory"))) /\
  (forall names d,
     os_path_isdir w folder = true ->
     os_listdir w folder = Ok names ->
     d ∈ names ->
     os_path_isfile w (joinpath (joinpath folder d) "hyperparameters.json") = false \/
     os_path_isfile w (joinpath (joinpath folder d) "model.pth") = false ->
     exists q,
       PredictionSystem.__init__ folder key params device w = Raise (FileNotFoundError q) /\
       os_path_isfile w q = false).
Proof.
  unfold PredictionSystem.__init__. split.
  - by intros ->.
  - intros names d -> -> Hin Hmissing. simpl.
    assert (forallb (fun d => well_formed w (joinpath folder d)) names = false) as Hall.
    { apply not_true_is_false. intros Hall.
      rewrite forallb_forall in Hall.
      specialize (Hall d). rewrite <- list_elem_of_In in Hall. specialize (Hall Hin).
      unfold well_formed in Hall. simpl in Hall.
      apply andb_prop in Hall as [H1 H2]. destruct Hmissing; congruence. }
    destruct (register_raise folder names ∅ w Hall) as (d' & q & _ & -> & Hq & _).
    eauto.
Qed.
End Registry.

Lemma toy_init :
  @PredictionSystem.__init__ Toy.lib "models" "key.json" "params.json" "cpu" 0%nat
  = Ok toy_system.
Proof. reflexivity. Qed.

Lemma C4_registry_after_init_witness :
  exists names,
    @os_listdir Toy.lib 0%nat "models" = Ok names /\
    (forall name, name ∈ names <-> is_Some (PredictionSystem._models toy_system !! name)) /\
    (forall name m, PredictionSystem._models toy_system !! name = Some m ->
       Model.path m = @joinpath Toy.lib "models" name /\
       m = Model.unloaded (@joinpath Toy.lib "models" name)).
Proof.
  apply (@C4_registry_after_init Toy.lib "models" "key.json" "params.json" "cpu" 0%nat).
  reflexivity.
Defined.

Lemma C8_eager_validation_witness :
  @PredictionSystem.__init__ Toy.lib "smiles.csv" "key.json" "params.json" "cpu" 0%nat =
    Raise (NotADirectoryError "smiles.csv is not a directory") /\
  exists q,
    @PredictionSystem.__init__ Toy.lib "broken" "key.json" "params.json" "cpu" 0%nat =
      Raise (FileNotFoundError q) /\
    @os_path_isfile Toy.lib 0%nat q = false.
Proof.
  split.
  - apply (@C8_eager_validation Toy.lib "smiles.csv" "key.json" "params.json" "cpu" 0%nat).
    reflexivity.
  - apply (proj2 (@C8_eager_validation Toy.lib "broken" "key.json" "params.json" "cpu" 0%nat)
             ["c"] "c").
    + reflexivity.
    + reflexivity.
    + apply list_elem_of_In. simpl. tauto.
    + right. reflexivity.
Defined.

Section AfterConstruction.
Context `{Lib}.

(** C2.  [predict(model_name, smiles)] raises [ModelUnknownError] exactly when
    [model_name] is not a key of the registry; when it does, the system and
    the world are as before and no delegated call has been made. *)
Theorem C2_lookup_miss self model_name smiles w :
  ((exists msg, res (PredictionSystem.predict model_name smiles self w) =
                  Raise (ModelUnknownError msg)) <->
   PredictionSystem._models self !! model_name = None) /\
  (PredictionSystem._models self !! model_name = None ->
   PredictionSystem.predict model_name smiles self w =
     mkOutcome (Raise (ModelUnknownError "Requested model does not exist")) self w []).
Proof.
  destruct (PredictionSystem._models self !! model_name) as [m|] eqn:Hm.
  - split; [|done]. split; [|done]. intros [msg Hres].
    destruct (predict_errors _ _ _ _ _ Hres eq_refl) as [_ Hnone]. congruence.
  - assert (PredictionSystem.predict model_name smiles self w =
      mkOutcome (Raise (ModelUnknownError "Requested model does not exist")) self w [])
      as Hrun.
    { unfold PredictionSystem.predict, bind at 1. rewrite get_model_outcome, Hm. done. }
    rewrite Hrun. simpl. split; [|done]. split; [done | eauto].
Qed.

(** C3, amended.  Apart from what the delegated libraries raise, these are
    the errors of the module.  [Model.__init__] raises [FileNotFoundError] and
    nothing else; [PredictionSystem.__init__] raises [NotADirectoryError],
    passes on that [FileNotFoundError] and what [os.listdir] raises.  Every
    operation on a constructed system (a prediction, a lookup, a method of a
    looked-up handle) raises [ModelUnknownError] exactly when the name is not
    registered; for a registered name its only other error of its own is the
    interpreter's [AttributeError] for an attribute that is not there.  That
    one comes from two places: a property read from a configuration that
    lacks the attribute, and [Model.predict] on a handle that lacks [_model]
    (raised whenever no network is stored, before any delegated call) or
    [_device].  [conf] and [load] raise no error of their own. *)
Theorem C3_errors_of_the_module :
  (forall p w e, Model.__init__ p w = Raise e -> exists q, e = FileNotFoundError q) /\
  (forall folder key params device w e,
     PredictionSystem.__init__ folder key params device w = Raise e ->
     (exists msg, e = NotADirectoryError msg) \/
     (exists q, e = FileNotFoundError q) \/
     (exists x, e = LibraryError x)) /\
  (forall op self w,
     PredictionSystem._models self !! target op = None ->
     res (perform op self w) = Raise (ModelUnknownError "Requested model does not exist")) /\
  (forall op self w e,
     res (perform op self w) = Raise e ->
     (e = ModelUnknownError "Requested model does not exist" /\
      PredictionSystem._models self !! target op = None) \/
     (is_Some (PredictionSystem._models self !! target op) /\
      ((exists a, e = AttributeError a /\ a ∈ read_attributes) \/
       (exists x, e = LibraryError x)))) /\
  (forall m w e,
     (res (Model.conf m w) = Raise e -> exists x, e = LibraryError x) /\
     (forall device, res (Model.load device m w) = Raise e -> exists x, e = LibraryError x) /\
     (forall p, res (read_property p m w) = Raise e ->
        (exists x, e = LibraryError x) \/
        (e = AttributeError (property_name p) /\
         exists c, Model._conf (obj (read_property p m w)) = Some c /\
                   c !! property_name p = None)) /\
     (forall data, res (Model.predict data m w) = Raise e ->
        (exists x, e = LibraryError x) \/
        (e = AttributeError "_model" /\ Model._model m = None /\
         events (Model.predict data m w) = []) \/
        (e = AttributeError "_device" /\ Model._device m = None /\
         events (Model.predict data m w) = []))) /\
  (forall m w data,
     Model._model m = None ->
     Model.predict data m w = mkOutcome (Raise (AttributeError "_model")) m w []) /\
  (forall p m w c,
     Model._conf m = Some c ->
     c !! property_name p = None ->
     read_property p m w = mkOutcome (Raise (AttributeError (property_name p))) m w []).
Proof.
  split; [|split; [|split; [|split; [|split; [|split]]]]].
  - intros p w e Hinit.
    destruct (well_formed w p) eqn:Hwf.
    + by rewrite (Model_init_ok _ _ Hwf) in Hinit.
    + destruct (Model_init_raise _ _ Hwf) as (q & Hq & _).
      rewrite Hq in Hinit. injection Hinit as <-. eauto.
  - intros folder key params device w e. unfold PredictionSystem.__init__.
    destruct (negb (os_path_isdir w folder)); [intros [= <-]; eauto|].
    destruct (os_listdir w folder) as [names|x]; [|intros [= <-]; eauto].
    destruct (forallb (fun d => well_formed w (joinpath folder d)) names) eqn:Hall.
    + destruct (register_ok folder names ∅ w Hall) as [out ->]. done.
    + destruct (register_raise folder names ∅ w Hall) as (d & q & _ & -> & _).
      intros [= <-]. eauto.
  - intros op self w. apply perform_lookup_miss.
  - intros op self w e. apply perform_error_kind.
  - intros m w e. split; [|split; [|split]].
    + apply conf_error_kind.
    + intros device. apply load_error_kind.
    + intros p. apply read_property_error_kind.
    + intros data. apply Model_predict_error_kind.
  - intros m w data. apply Model_predict_unloaded.
  - intros p m w c. apply read_property_missing.
Qed.

(** C10, amended.  Whatever operations are performed on a constructed system
    (predictions, lookups, configuration and property reads, loads, inference
    on a handle), its device, its encryption key path, its preparation
    parameters path and the set of registered names stay as they are, and so
    do the three paths of every handle.  Of a handle only [_conf], [_model] and
    [_device] change: a stored [_conf] and a stored [_model] are never
    replaced, and [_device] is never replaced once [_model] is stored. *)
Theorem C10_frame_of_operations ops self w :
  system_frame self (perform_all ops self w).1.
Proof. apply perform_all_frame. Qed.
End AfterConstruction.

Lemma C2_lookup_miss_witness :
  @PredictionSystem.predict Toy.lib "zz" "smiles.csv" toy_system 0%nat =
    @mkOutcome Toy.lib _ _
      (Raise (ModelUnknownError "Requested model does not exist")) toy_system 0%nat [].
Proof.
  apply (proj2 (@C2_lookup_miss Toy.lib toy_system "zz" "smiles.csv" 0%nat)).
  reflexivity.
Defined.

(** C3 as stated fails: constructing a system on something that is not a
    directory, or on a folder with a malformed entry, raises an error of the
    module that is not [ModelUnknownError]; and so does inference on a handle
    that was never loaded, without any delegated call having been made. *)
Lemma C3_other_own_errors :
  @PredictionSystem.__init__ Toy.lib "smiles.csv" "key.json" "params.json" "cpu" 0%nat =
    Raise (NotADirectoryError "smiles.csv is not a directory") /\
  @raised_by_module Toy.lib (NotADirectoryError "smiles.csv is not a directory") = true /\
  @PredictionSystem.__init__ Toy.lib "broken" "key.json" "params.json" "cpu" 0%nat =
    Raise (@FileNotFoundError Toy.lib "broken/c/model.pth") /\
  raised_by_module (@FileNotFoundError Toy.lib "broken/c/model.pth") = true /\
  @perform Toy.lib (@Infer Toy.lib "a" ((3, 1024), (3, 5), (3, 2))) toy_system 0%nat =
    @mkOutcome Toy.lib _ _ (Raise (AttributeError "_model")) toy_system 0%nat [] /\
  PredictionSystem._models toy_system !! "a" = Some (@Model.unloaded Toy.lib "models/a").
Proof. repeat split; reflexivity. Qed.

Lemma C3_errors_of_the_module_witness :
  (exists q, @FileNotFoundError Toy.lib "broken/c/model.pth" = FileNotFoundError q) /\
  res (@perform Toy.lib (@Predict Toy.lib "zz" "smiles.csv") toy_system 0%nat) =
    Raise (ModelUnknownError "Requested model does not exist") /\
  @Model.predict Toy.lib ((3, 1024), (3, 5), (3, 2)) (@Model.unloaded Toy.lib "models/a") 0%nat =
    @mkOutcome Toy.lib _ _ (Raise (AttributeError "_model"))
      (@Model.unloaded Toy.lib "models/a") 0%nat [] /\
  @read_property Faulty.lib prop_input_transform
     (Model.set_conf Faulty.conf_without_transform (@Model.unloaded Faulty.lib "models/a"))
     0%nat =
    @mkOutcome Faulty.lib _ _ (Raise (AttributeError "input_transform"))
      (Model.set_conf Faulty.conf_without_transform (@Model.unloaded Faulty.lib "models/a"))
      0%nat [].
Proof.
  pose proof (@C3_errors_of_the_module Toy.lib)
    as (Hmodel & _ & Hmiss & _ & _ & Hunloaded & _).
  pose proof (@C3_errors_of_the_module Faulty.lib) as (_ & _ & _ & _ & _ & _ & Hmissing).
  split; [|split; [|split]].
  - apply (Hmodel "broken/c" 0%nat). reflexivity.
  - apply (Hmiss (@Predict Toy.lib "zz" "smiles.csv") toy_system 0%nat). reflexivity.
  - apply Hunloaded. reflexivity.
  - apply (Hmissing prop_input_transform _ 0%nat Faulty.conf_without_transform);
      reflexivity.
Defined.

(** C10 as stated fails on [_device]: a load that fails after storing the
    device leaves it behind, and the next load overwrites it. *)
Lemma C10_device_overwritten :
  let s1 := (perform_all [@LoadModel Toy.lib "a" "cuda:0"] toy_system 0%nat).1 in
  let s2 :=
    (perform_all [@LoadModel Toy.lib "a" "cuda:0"; @LoadModel Toy.lib "a" "cpu"]
       toy_system 0%nat).1 in
  @Model._device Toy.lib <$> (PredictionSystem._models s1 !! "a") = Some (Some "cuda:0") /\
  @Model._model Toy.lib <$> (PredictionSystem._models s1 !! "a") = Some None /\
  @Model._device Toy.lib <$> (PredictionSystem._models s2 !! "a") = Some (Some "cpu").
Proof. repeat split; reflexivity. Qed.

Section Caching.
Context `{Lib}.

(** C9.  Once [load(d1)] has loaded a model that had no network stored, the
    handle holds [d1] and the network; every later [load(d2)], one or many,
    for any device, returns at once: no delegated call, the handle and the
    world (where the weights live) as they were; and a prediction on the
    handle still passes the stored network and [d1] to [sparsechem.predict]. *)
Theorem C9_later_loads_ignored m d1 w :
  Model._model m = None ->
  res (Model.load d1 m w) = Ok tt ->
  Model._device (obj (Model.load d1 m w)) = Some d1 /\
  exists net,
    Model._model (obj (Model.load d1 m w)) = Some net /\
    (forall d2 w',
       Model.load d2 (obj (Model.load d1 m w)) w' =
         mkOutcome (Ok tt) (obj (Model.load d1 m w)) w' []) /\
    (forall devices w',
       load_each devices (obj (Model.load d1 m w)) w' =
         mkOutcome (Ok tt) (obj (Model.load d1 m w)) w' []) /\
    (forall devices data w',
       let later := load_each devices (obj (Model.load d1 m w)) w' in
       Model.predict data (obj later) (world later) =
         sparsechem_predict_call net data d1 0 false None (obj (Model.load d1 m w)) w').
Proof.
  intros Hn Hok.
  destruct (load_first m w d1 Hn) as [_ Hfirst].
  destruct (Hfirst Hok) as (Hdev & conf & net0 & net & dev & state & _ & Hnet & _).
  split; [done|]. exists net. split; [done|]. split; [|split].
  - intros d2 w'. by eapply load_stored.
  - intros devices w'. by eapply load_each_stored.
  - intros devices data w'. simpl.
    rewrite (load_each_stored devices _ w' net Hnet). simpl.
    by apply Model_predict_stored.
Qed.
End Caching.

Lemma C9_later_loads_ignored_witness :
  let m1 := obj (@Model.load Toy.lib "cpu" (@Model.unloaded Toy.lib "models/a") 0%nat) in
  Model._device m1 = Some "cpu" /\
  exists net,
    Model._model m1 = Some net /\
    (forall d2 w', Model.load d2 m1 w' = mkOutcome (Ok tt) m1 w' []) /\
    (forall devices w', load_each devices m1 w' = mkOutcome (Ok tt) m1 w' []) /\
    (forall devices data w',
       let later := load_each devices m1 w' in
       Model.predict data (obj later) (world later) =
         sparsechem_predict_call net data "cpu" 0 false None m1 w').
Proof.
  apply (@C9_later_loads_ignored Toy.lib (@Model.unloaded Toy.lib "models/a") "cpu" 0%nat).
  - reflexivity.
  - reflexivity.
Defined.

Section Laziness.
Context `{Lib}.

(** C7, amended.  The module evicts nothing and stores no preprocessing or
    prediction result, but a handle caches lazily.  A stored configuration is
    returned as it is, without any delegated call; only an access that finds
    none stored reads [hyperparameters.json] through [sparsechem.load_results]
    and stores what it read.  [load] with a network stored does nothing; only
    a [load] that finds none builds the network, reads [model.pth] and stores
    the network.  Every successful [predict] goes through reading,
    preparation, folding and inference again. *)
Theorem C7_lazy_caching :
  (forall m w c,
     Model._conf m = Some c -> Model.conf m w = mkOutcome (Ok c) m w []) /\
  (forall m w,
     Model._conf m = None ->
     events (Model.conf m w) = [call_load_results (path_str (Model._conf_path m)) true] /\
     forall c, res (Model.conf m w) = Ok c ->
       (load_results (path_str (Model._conf_path m)) true w).1 = Ok c /\
       Model._conf (obj (Model.conf m w)) = Some c) /\
  (forall m w device net,
     Model._model m = Some net -> Model.load device m w = mkOutcome (Ok tt) m w []) /\
  (forall m w device,
     Model._model m = None ->
     events (Model.load device m w) <> [] /\
     (res (Model.load device m w) = Ok tt ->
      exists conf net0 net dev state,
        Model._conf (obj (Model.load device m w)) = Some conf /\
        Model._model (obj (Model.load device m w)) = Some net /\
        call_SparseFFN conf ∈ events (Model.load device m w) /\
        call_to net0 device ∈ events (Model.load device m w) /\
        call_torch_load (Model._model_path m) dev ∈ events (Model.load device m w) /\
        call_load_state_dict net state ∈ events (Model.load device m w))) /\
  (forall self model_name smiles w a,
     res (PredictionSystem.predict model_name smiles self w) = Ok a ->
     phases (events (PredictionSystem.predict model_name smiles self w)) = pipeline).
Proof.
  split; [|split; [|split; [|split]]].
  - intros m w c. apply conf_stored.
  - intros m w. apply conf_read.
  - intros m w device net. apply load_stored.
  - intros m w device Hn. destruct (load_first m w device Hn) as [Hev Hok].
    split; [done|]. intros Hres. by destruct (Hok Hres) as [_ Hrest].
  - intros self model_name smiles w a. apply predict_phases.
Qed.
End Laziness.

(** C7 as stated fails: the second access to the configuration of a handle
    makes no delegated call and returns the configuration stored by the
    first, although a read at that time would return another one; and the
    second [load] makes no delegated call either. *)
Lemma C7_second_access_reads_nothing :
  let r1 := @Model.conf Toy.lib (@Model.unloaded Toy.lib "models/a") 0%nat in
  let r2 := Model.conf (obj r1) (world r1) in
  let l1 := @Model.load Toy.lib "cpu" (@Model.unloaded Toy.lib "models/a") 0%nat in
  let l2 := Model.load "cpu" (obj l1) (world l1) in
  events r1 = [call_load_results "models/a/hyperparameters.json" true] /\
  events r2 = [] /\
  res r2 = Ok (Toy.conf_at 0) /\
  (@load_results Toy.lib "models/a/hyperparameters.json" true (world r1)).1 =
    Ok (Toy.conf_at 1) /\
  Toy.conf_at 0 !! "read_at" = Some (VInt 0) /\
  Toy.conf_at 1 !! "read_at" = Some (VInt 1) /\
  res l1 = Ok tt /\
  length (events l1) = 6%nat /\
  res l2 = Ok tt /\
  events l2 = [].
Proof. repeat split; reflexivity. Qed.

Lemma C7_lazy_caching_witness :
  let m := @Model.unloaded Toy.lib "models/a" in
  let m1 := obj (@Model.conf Toy.lib m 0%nat) in
  @Model.conf Toy.lib m1 7%nat = @mkOutcome Toy.lib _ _ (Ok (Toy.conf_at 0)) m1 7%nat [] /\
  (events (@Model.conf Toy.lib m 0%nat) =
     [call_load_results (path_str (Model._conf_path m)) true] /\
   forall c, res (@Model.conf Toy.lib m 0%nat) = Ok c ->
     (@load_results Toy.lib (path_str (Model._conf_path m)) true 0%nat).1 = Ok c /\
     Model._conf (obj (@Model.conf Toy.lib m 0%nat)) = Some c) /\
  events (@Model.load Toy.lib "cpu" m 0%nat) <> [] /\
  phases (events (@PredictionSystem.predict Toy.lib "a" "smiles.csv" toy_system 0%nat))
    = pipeline.
Proof.
  pose proof (@C7_lazy_caching Toy.lib) as (Hstored & Hread & _ & Hfirst & Hpredict).
  split; [|split; [|split]].
  - apply Hstored. reflexivity.
  - apply Hread. reflexivity.
  - apply Hfirst. reflexivity.
  - apply (Hpredict toy_system "a" "smiles.csv" 0%nat ((3, 5), (3, 2))). reflexivity.
Defined.

Section Requests.
Context `{Lib}.

(** C5.  On a system constructed with the encryption key [key] and the
    preparation parameters [params], whatever has been done with it since,
    every preparation request that a [predict] call hands to
    [melloddy_tuner] consists of exactly: the structure file given to the
    call, the parameters file and the key file given at construction, the run
    name ["mms"], [number_cpu] 1, [non_interactive] true and a null
    [ref_hash]. *)
Theorem C5_preparation_request
    folder key params device w0 self0 ops w1 model_name smiles w args df :
  PredictionSystem.__init__ folder key params device w0 = Ok self0 ->
  call_do_prepare_prediction_online args df
    ∈ events (PredictionSystem.predict model_name smiles (perform_all ops self0 w1).1 w) ->
  args = {[ "structure_file" := VStr (path_str smiles);
            "config_file" := VStr (path_str params);
            "key_file" := VStr (path_str key);
            "run_name" := VStr "mms";
            "number_cpu" := VInt 1;
            "non_interactive" := VBool true;
            "ref_hash" := VNone ]}.
Proof.
  intros Hinit Hin.
  apply init_fields in Hinit as (_ & Hkey & Hparams).
  destruct (perform_all_frame ops self0 w1) as (_ & Hkey' & Hparams' & _).
  rewrite (predict_prepare_args _ _ _ _ _ _ Hin).
  rewrite build_data_preparation_args_explicit.
  by rewrite Hkey', Hparams', Hkey, Hparams.
Qed.
End Requests.

Lemma C5_preparation_request_witness :
  let request : Namespace :=
    {[ "structure_file" := VStr "smiles.csv";
       "config_file" := VStr "params.json";
       "key_file" := VStr "key.json";
       "run_name" := VStr "mms";
       "number_cpu" := VInt 1;
       "non_interactive" := VBool true;
       "ref_hash" := VNone ]} in
  let later := (perform_all [@Predict Toy.lib "a" "smiles.csv"] toy_system 0%nat).1 in
  @PredictionSystem.__init__ Toy.lib "models" "key.json" "params.json" "cpu" 0%nat =
    Ok toy_system /\
  @call_do_prepare_prediction_online Toy.lib request ["CCO"; "c1ccccc1"; "CC(=O)O"]
    ∈ events (@PredictionSystem.predict Toy.lib "b" "smiles.csv" later 9%nat) /\
  request =
    {[ "structure_file" := VStr (@path_str Toy.lib "smiles.csv");
       "config_file" := VStr (@path_str Toy.lib "params.json");
       "key_file" := VStr (@path_str Toy.lib "key.json");
       "run_name" := VStr "mms";
       "number_cpu" := VInt 1;
       "non_interactive" := VBool true;
       "ref_hash" := VNone ]}.
Proof.
  intros request later.
  assert (@PredictionSystem.__init__ Toy.lib "models" "key.json" "params.json" "cpu" 0%nat =
            Ok toy_system) as Hinit by reflexivity.
  assert (@call_do_prepare_prediction_online Toy.lib request ["CCO"; "c1ccccc1"; "CC(=O)O"]
            ∈ events (@PredictionSystem.predict Toy.lib "b" "smiles.csv" later 9%nat)) as Hin
    by in_list.
  split; [exact Hinit|]. split; [exact Hin|].
  exact (@C5_preparation_request Toy.lib "models" "key.json" "params.json" "cpu" 0%nat
           toy_system [@Predict Toy.lib "a" "smiles.csv"] 0%nat "b" "smiles.csv" 9%nat
           _ _ Hinit Hin).
Defined.

Section Pipeline.
Context `{Lib}.


(** C6, amended.  The folding/transform step of a prediction is a call of the
    sparse-network library ([sparsechem.fold_transform_inputs]), not of the
    chemistry-descriptor toolkit; it works on the matrix the toolkit's
    preparation returned, and its folding size and its transform are the
    [fold_inputs] and [input_transform] attributes of the configuration of the
    resolved model: the configuration stored in the handle, read from the
    model's [hyperparameters.json] if none was stored. *)
Theorem C6_fold_transform self model_name smiles w data folding_size transform :
  call_fold_transform_inputs data folding_size transform
    ∈ events (PredictionSystem.predict model_name smiles self w) ->
  provider (call_fold_transform_inputs data folding_size transform) = sparsechem /\
  (exists args df w1 w1',
     call_do_prepare_prediction_online args df
       ∈ events (PredictionSystem.predict model_name smiles self w) /\
     provider (call_do_prepare_prediction_online args df) = melloddy_tuner /\
     do_prepare_prediction_online args df w1 = (Ok data, w1')) /\
  exists m0 m conf,
    PredictionSystem._models self !! model_name = Some m0 /\
    PredictionSystem._models (obj (PredictionSystem.predict model_name smiles self w))
      !! model_name = Some m /\
    Model._conf m = Some conf /\
    conf !! "fold_inputs" = Some folding_size /\
    conf !! "input_transform" = Some transform /\
    (Model._conf m0 = Some conf \/
     Model._conf m0 = None /\
     exists w2 w2',
       load_results (path_str (Model._conf_path m0)) true w2 = (Ok conf, w2')).
Proof.
  intros Hin. split; [done|].
  destruct (predict_fold _ _ _ _ _ _ _ Hin) as [(args & df & w1 & w1' & Hprep & Hrun) Hconf].
  split; [|exact Hconf]. exists args, df, w1, w1'. by repeat split.
Qed.
End Pipeline.



(** C6 as stated fails: the fourth delegated call of a prediction is the
    folding step, and it is a [sparsechem] call. *)
Lemma C6_fold_is_a_sparsechem_call :
  let r := @PredictionSystem.predict Toy.lib "a" "smiles.csv" toy_system 0%nat in
  let e := @call_fold_transform_inputs Toy.lib (3, 32000) (VInt 1024) (VStr "binarize") in
  events r !! 3%nat = Some e /\
  phase_of e = Some folding /\
  provider e = sparsechem /\
  provider e <> melloddy_tuner.
Proof. repeat split; try reflexivity. discriminate. Qed.

Lemma C6_fold_transform_witness :
  let r := @PredictionSystem.predict Toy.lib "a" "smiles.csv" toy_system 0%nat in
  let e := @call_fold_transform_inputs Toy.lib (3, 32000) (VInt 1024) (VStr "binarize") in
  e ∈ events r /\
  provider e = sparsechem /\
  exists m conf,
    PredictionSystem._models (obj r) !! "a" = Some m /\
    Model._conf m = Some conf /\
    conf !! "fold_inputs" = Some (VInt 1024) /\
    conf !! "input_transform" = Some (VStr "binarize").
Proof.
  intros r e.
  assert (e ∈ events r) as Hin by in_list.
  destruct (@C6_fold_transform Toy.lib toy_system "a" "smiles.csv" 0%nat _ _ _ Hin)
    as (Hprov & _ & m0 & m & conf & _ & Hm & Hconf & Hfold & Htr & _).
  split; [exact Hin|]. split; [exact Hprov|]. exists m, conf. by repeat split.
Defined.

(** * More about the module *)

(** ** Construction *)

Section ConstructionMore.
Context `{Lib}.

(** The file a malformed model folder is reported for: the configuration is
    checked first. *)
Lemma Model_init_reports p w :
  well_formed w p = false ->
  Model.__init__ p w =
    Raise (FileNotFoundError
             (if os_path_isfile w (joinpath p "hyperparameters.json")
              then joinpath p "model.pth"
              else joinpath p "hyperparameters.json")).
Proof.
  unfold well_formed, Model.__init__. simpl.
  destruct (os_path_isfile w (joinpath p "hyperparameters.json")); simpl; [|done].
  by intros ->.
Qed.

(** [PredictionSystem(model_folder, ...)] returns a system exactly when
    [model_folder] is a directory, it can be listed, and every listed entry
    has both files. *)
Theorem init_succeeds_iff folder key params device w :
  (exists s, PredictionSystem.__init__ folder key params device w = Ok s) <->
  os_path_isdir w folder = true /\
  exists names,
    os_listdir w folder = Ok names /\
    forall d, d ∈ names -> well_formed w (joinpath folder d) = true.
Proof.
  unfold PredictionSystem.__init__.
  destruct (os_path_isdir w folder); simpl; [|split; [by intros [? ?] | by intros [? _]]].
  destruct (os_listdir w folder) as [names|e];
    [|split; [by intros [? ?] | by intros (_ & ? & ? & _)]].
  destruct (forallb (fun d => well_formed w (joinpath folder d)) names) eqn:Hall.
  - destruct (register_ok folder names ∅ w Hall) as [out ->].
    split; [|eauto]. intros _. split; [done|]. exists names. split; [done|].
    intros d Hd. rewrite forallb_forall in Hall. apply Hall. by apply list_elem_of_In.
  - destruct (register_raise folder names ∅ w Hall) as (d & q & _ & -> & _).
    split; [by intros [? ?]|]. intros (_ & names' & [= <-] & Hwf).
    assert (forallb (fun d => well_formed w (joinpath folder d)) names = true) as Habs.
    { apply forallb_forall. intros x Hx. apply Hwf. by apply list_elem_of_In. }
    congruence.
Qed.

(** Construction stops at the first malformed entry of the listing, and
    reports its [hyperparameters.json] if that is missing, its [model.pth]
    otherwise; the entries listed after it are not looked at. *)
Theorem init_reports_first_malformed
    folder key params device w (good : list string) d rest :
  os_path_isdir w folder = true ->
  os_listdir w folder = Ok (good ++ d :: rest)%list ->
  (forall g, g ∈ good -> well_formed w (joinpath folder g) = true) ->
  well_formed w (joinpath folder d) = false ->
  PredictionSystem.__init__ folder key params device w =
    Raise (FileNotFoundError
             (if os_path_isfile w (joinpath (joinpath folder d) "hyperparameters.json")
              then joinpath (joinpath folder d) "model.pth"
              else joinpath (joinpath folder d) "hyperparameters.json")).
Proof.
  intros Hdir Hlist Hgood Hbad. unfold PredictionSystem.__init__.
  rewrite Hdir, Hlist. simpl.
  assert (forall models,
    PredictionSystem.register folder (good ++ d :: rest)%list models w =
      Raise (FileNotFoundError
               (if os_path_isfile w (joinpath (joinpath folder d) "hyperparameters.json")
                then joinpath (joinpath folder d) "model.pth"
                else joinpath (joinpath folder d) "hyperparameters.json"))) as Hreg.
  { clear Hlist. induction good as [|g good IH]; intros models; simpl.
    - by rewrite (Model_init_reports _ _ Hbad).
    - rewrite (Model_init_ok (joinpath folder g) w).
      + apply IH. intros g' Hg'. apply Hgood. rewrite elem_of_cons. tauto.
      + apply Hgood. rewrite elem_of_cons. tauto. }
  by rewrite Hreg.
Qed.
End ConstructionMore.

Lemma init_reports_first_malformed_witness :
  @PredictionSystem.__init__ Toy.lib "broken" "key.json" "params.json" "cpu" 0%nat =
    Raise (@FileNotFoundError Toy.lib "broken/c/model.pth").
Proof.
  exact (@init_reports_first_malformed Toy.lib "broken" "key.json" "params.json" "cpu"
           0%nat [] "c" [] eq_refl eq_refl
           (fun g Hg => False_ind _ (not_elem_of_nil g Hg)) eq_refl).
Defined.

(** ** What a prediction does to the system *)

Section PredictMore.
Context `{Lib}.

Lemma store_same s name m :
  PredictionSystem._models s !! name = Some m -> PredictionSystem.store name m s = s.
Proof.
  intros Hm. destruct s as [dev key params models]. unfold PredictionSystem.store.
  simpl in *. by rewrite insert_id.
Qed.

Lemma predict_obj s name smiles w :
  obj (PredictionSystem.predict name smiles s w) = s \/
  exists m', obj (PredictionSystem.predict name smiles s w) = PredictionSystem.store name m' s.
Proof.
  wp_start (PredictionSystem.predict name smiles) s w.
  unfold PredictionSystem.predict, PredictionSystem._get_model.
  wp_run; first [by left | right; by eexists].
Qed.

(** A prediction for one model leaves the handle of every other model
    exactly as it was. *)
Theorem predict_touches_one_handle self model_name smiles w other :
  other <> model_name ->
  PredictionSystem._models (obj (PredictionSystem.predict model_name smiles self w)) !! other
    = PredictionSystem._models self !! other.
Proof.
  intros Hne. destruct (predict_obj self model_name smiles w) as [-> | [m' ->]]; [done|].
  unfold PredictionSystem.store. simpl. by rewrite lookup_insert_ne.
Qed.

(** A prediction changes the system only when it makes a call of [conf] or
    [load]: a run without any such call (a lookup miss, a failure of the
    tuner, a model already loaded) leaves the system exactly as it was. *)
Theorem predict_without_loading_changes_nothing self model_name smiles w :
  (forall e, e ∈ events (PredictionSystem.predict model_name smiles self w) ->
             is_loading_call e = false) ->
  obj (PredictionSystem.predict model_name smiles self w) = self.
Proof.
  wp_start (PredictionSystem.predict model_name smiles) self w.
  unfold PredictionSystem.predict, PredictionSystem._get_model.
  wp_run; intros Hev; try done.
  all: try (by apply store_same).
  all: exfalso; rewrite <- Forall_forall in Hev.
  all: repeat match goal with
              | Hall : Forall _ (_ :: _) |- _ =>
                  let Hhd := fresh "Hhd" in
                  apply Forall_cons in Hall as [Hhd Hall]; simpl in Hhd;
                  try discriminate Hhd
              end.
Qed.
End PredictMore.

Lemma predict_touches_one_handle_witness :
  PredictionSystem._models
    (obj (@PredictionSystem.predict Toy.lib "a" "smiles.csv" toy_system 0%nat)) !! "b"
  = PredictionSystem._models toy_system !! "b".
Proof.
  apply (@predict_touches_one_handle Toy.lib toy_system "a" "smiles.csv" 0%nat "b").
  discriminate.
Defined.

Lemma predict_without_loading_changes_nothing_witness :
  obj (@PredictionSystem.predict Toy.lib "a" "nowhere.csv" toy_system 0%nat) = toy_system.
Proof.
  apply (@predict_without_loading_changes_nothing Toy.lib toy_system "a" "nowhere.csv" 0%nat).
  intros e He.
  change (e ∈ [@call_read_input_file Toy.lib "nowhere.csv"]) in He.
  apply list_elem_of_singleton in He as ->. reflexivity.
Defined.

(** ** Loading *)

Section LoadingMore.
Context `{Lib}.

(** A [load] that finds no network stored records the device it was asked
    for before anything can fail: whatever the outcome, the handle holds that
    device afterwards. *)
Theorem load_records_device_first m device w :
  Model._model m = None ->
  Model._device (obj (Model.load device m w)) = Some device.
Proof.
  intros Hn. wp_start (Model.load device) m w. wp_run; done.
Qed.


(** When a [load] raises after the network was stored, what it raises is what
    its last call raised, and that call is [torch.device], [torch.load] of the
    handle's [model.pth], or [load_state_dict] on the stored network; in the
    first two cases [load_state_dict] has not been called at all.  Yet every
    later [load] returns at once without any call, so [load_state_dict] is not
    called later either, and [predict] passes that network and the recorded
    device to [sparsechem.predict]. *)
Theorem load_failure_keeps_network m device w e net :
  Model._model m = None ->
  res (Model.load device m w) = Raise e ->
  Model._model (obj (Model.load device m w)) = Some net ->
  (exists x,
     e = LibraryError x /\
     ((exists w1,
         torch_device device w1 = (Raise x, world (Model.load device m w)) /\
         list.last (events (Model.load device m w)) = Some (call_torch_device device) /\
         forall n state, call_load_state_dict n state ∉ events (Model.load device m w)) \/
      (exists dev w1,
         torch_load (Model._model_path m) dev w1 = (Raise x, world (Model.load device m w)) /\
         list.last (events (Model.load device m w)) =
           Some (call_torch_load (Model._model_path m) dev) /\
         forall n state, call_load_state_dict n state ∉ events (Model.load device m w)) \/
      (exists state w1,
         load_state_dict net state w1 = (Raise x, world (Model.load device m w)) /\
         list.last (events (Model.load device m w)) =
           Some (call_load_state_dict net state)))) /\
  (forall d2 w',
     Model.load d2 (obj (Model.load device m w)) w' =
       mkOutcome (Ok tt) (obj (Model.load device m w)) w' []) /\
  (forall data w',
     Model.predict data (obj (Model.load device m w)) w' =
       sparsechem_predict_call net data device 0 false None
         (obj (Model.load device m w)) w').
Proof.
  intros Hn. wp_start (Model.load device) m w. wp_run; try (by intros [=]).
  all: intros [= <-] Hnet; try congruence.
  all: injection Hnet as <-.
  all: split;
    [eexists; split; [reflexivity|];
     first
       [ left; eexists; split; [eassumption|]; split; [reflexivity|];
         intros n0 state Hin; solve [in_list_inv Hin]
       | right; left; do 2 eexists; split; [eassumption|]; split; [reflexivity|];
         intros n0 state Hin; solve [in_list_inv Hin]
       | right; right; do 2 eexists; split; [eassumption | reflexivity] ]|].
  all: split; [intros d2 w'; by eapply load_stored |].
  all: intros data w'; by apply Model_predict_stored.
Qed.
End LoadingMore.


Lemma load_records_device_first_witness :
  Model._device (obj (@Model.load Toy.lib "cuda:0" (@Model.unloaded Toy.lib "models/a") 0%nat))
  = Some "cuda:0".
Proof.
  exact (@load_records_device_first Toy.lib (@Model.unloaded Toy.lib "models/a") "cuda:0"
           0%nat eq_refl).
Defined.

Lemma load_failure_keeps_network_witness :
  let m := @Model.unloaded Faulty.lib "models/b" in
  let r := @Model.load Faulty.lib "cpu" m 0%nat in
  res r = Raise (@LibraryError Faulty.lib "invalid load key") /\
  Model._model (obj r) = Some (5, 2, "cpu") /\
  (exists x, @LibraryError Faulty.lib "invalid load key" = LibraryError x) /\
  (forall d2 w', Model.load d2 (obj r) w' = mkOutcome (Ok tt) (obj r) w' []) /\
  (forall data w',
     Model.predict data (obj r) w' =
       @sparsechem_predict_call Faulty.lib _ (5, 2, "cpu") data "cpu" 0 false None (obj r) w').
Proof.
  intros m r.
  destruct (@load_failure_keeps_network Faulty.lib m "cpu" 0%nat
              (@LibraryError Faulty.lib "invalid load key") (5, 2, "cpu")
              eq_refl eq_refl eq_refl) as ((x & Hx & _) & Hlater & Hpredict).
  split; [reflexivity|]. split; [reflexivity|]. split; [by exists x|]. by split.
Defined.

(** ** Predictions and the state of the handle *)

Section PredictState.
Context `{Lib}.

(** One prediction reads the hyperparameters file at most once, although it
    asks the handle for its configuration five times; it does not read it at
    all when the handle has a configuration stored. *)
Theorem predict_reads_configuration_once self model_name smiles w :
  (length (List.filter is_configuration_read
             (events (PredictionSystem.predict model_name smiles self w))) <= 1)%nat /\
  (forall m c,
     PredictionSystem._models self !! model_name = Some m ->
     Model._conf m = Some c ->
     List.filter is_configuration_read
       (events (PredictionSystem.predict model_name smiles self w)) = []).
Proof.
  wp_start (PredictionSystem.predict model_name smiles) self w.
  unfold PredictionSystem.predict, PredictionSystem._get_model.
  wp_run; (split; [simpl; lia | intros m c Hm Hc; simplify_eq; done]).
Qed.

(** A prediction that returns leaves the handle with configuration, network
    and device stored. *)
Lemma predict_success_stores s name smiles w a :
  res (PredictionSystem.predict name smiles s w) = Ok a ->
  exists m' c n d,
    PredictionSystem._models (obj (PredictionSystem.predict name smiles s w)) !! name
      = Some m' /\
    Model._conf m' = Some c /\ Model._model m' = Some n /\ Model._device m' = Some d.
Proof.
  wp_start (PredictionSystem.predict name smiles) s w.
  unfold PredictionSystem.predict, PredictionSystem._get_model.
  wp_run; try (by intros [=]).
  all: intros _; do 4 eexists; split; [apply lookup_insert_eq|]; wp_simpl.
  all: repeat split; first [eassumption | reflexivity].
Qed.

(** With configuration and network stored, a prediction makes no call of
    [conf] or [load]. *)
Lemma predict_no_loading s name smiles w m c n :
  PredictionSystem._models s !! name = Some m ->
  Model._conf m = Some c -> Model._model m = Some n ->
  forall e, e ∈ events (PredictionSystem.predict name smiles s w) ->
            is_loading_call e = false.
Proof.
  intros Hm Hc Hn. wp_start (PredictionSystem.predict name smiles) s w.
  unfold PredictionSystem.predict, PredictionSystem._get_model.
  wp_run; intros call Hcall; in_list_inv Hcall; by subst.
Qed.

(** Once a prediction for a model has returned, no later prediction for that
    model, whatever is done with the system in between, reads the
    configuration, builds a network or reads the weights again. *)
Theorem predict_loads_once self model_name smiles w a ops w1 smiles' w2 e :
  res (PredictionSystem.predict model_name smiles self w) = Ok a ->
  e ∈ events (PredictionSystem.predict model_name smiles'
                (perform_all ops (obj (PredictionSystem.predict model_name smiles self w)) w1).1
                w2) ->
  is_loading_call e = false.
Proof.
  intros Hok.
  destruct (predict_success_stores _ _ _ _ _ Hok) as (m' & c & n & d & Hm' & Hc & Hn & _).
  destruct (perform_all_frame ops
              (obj (PredictionSystem.predict model_name smiles self w)) w1)
    as (_ & _ & _ & _ & Hhandles).
  destruct (Hhandles _ _ Hm') as (m'' & Hm'' & _ & _ & _ & Hconf & Hnet).
  destruct (Hnet _ Hn) as [Hn'' _].
  by eapply predict_no_loading; [exact Hm'' | apply Hconf | exact Hn''].
Qed.

(** The device of the inference is the device stored in the handle, not the
    device of the system: they agree when the prediction itself loaded the
    model, but a handle that already held a network is used with the network
    and the device it held. *)
Theorem predict_inference_device
    self model_name smiles w net loader dev dropout progress y_cat_columns :
  call_predict net loader dev dropout progress y_cat_columns
    ∈ events (PredictionSystem.predict model_name smiles self w) ->
  exists m0 m',
    PredictionSystem._models self !! model_name = Some m0 /\
    PredictionSystem._models (obj (PredictionSystem.predict model_name smiles self w))
      !! model_name = Some m' /\
    Model._model m' = Some net /\
    Model._device m' = Some dev /\
    (Model._model m0 = None -> dev = PredictionSystem._device self) /\
    (forall n0, Model._model m0 = Some n0 -> n0 = net /\ Model._device m0 = Some dev).
Proof.
  wp_start (PredictionSystem.predict model_name smiles) self w.
  unfold PredictionSystem.predict, PredictionSystem._get_model.
  wp_run; intros Hin; in_list_inv Hin; injection Hin as -> -> -> -> -> ->.
  all: do 2 eexists; split; [reflexivity|]; split; [apply lookup_insert_eq|]; wp_simpl.
  all: split; [first [eassumption | reflexivity]|].
  all: split; [first [eassumption | reflexivity]|].
  all: split; [intros; congruence | intros n0 Hn0; split; congruence].
Qed.
End PredictState.

(** ** A network comes with its device *)

Section DeviceKnown.
Context `{Lib}.

Ltac device_leaf Hdk :=
  unfold device_known in *; wp_simpl; intros net Hnet;
  first [ by eapply Hdk | congruence | by eexists ].

Lemma conf_device_known m w : device_known m -> device_known (obj (Model.conf m w)).
Proof. intros Hdk. wp_start Model.conf m w. wp_run; device_leaf Hdk. Qed.

Lemma read_property_device_known p m w :
  device_known m -> device_known (obj (read_property p m w)).
Proof.
  intros Hdk. wp_start (read_property p) m w.
  destruct p; unfold read_property; wp_run; device_leaf Hdk.
Qed.

Lemma load_device_known device m w :
  device_known m -> device_known (obj (Model.load device m w)).
Proof. intros Hdk. wp_start (Model.load device) m w. wp_run; device_leaf Hdk. Qed.

Lemma Model_predict_device_known data m w :
  device_known m -> device_known (obj (Model.predict data m w)).
Proof. intros Hdk. wp_start (Model.predict data) m w. wp_run; device_leaf Hdk. Qed.

Lemma store_device_known s name m' :
  all_device_known s -> device_known m' ->
  all_device_known (PredictionSystem.store name m' s).
Proof.
  intros Hall Hm' name' m0. unfold PredictionSystem.store. simpl.
  destruct (decide (name = name')) as [<-|Hne].
  - rewrite lookup_insert_eq. by intros [= <-].
  - rewrite lookup_insert_ne by done. apply Hall.
Qed.

Lemma on_registered_device_known {A} name (body : Eff Model.t A) s w :
  (forall m w', device_known m -> device_known (obj (body m w'))) ->
  all_device_known s -> all_device_known (obj (on_registered name body s w)).
Proof.
  intros Hbody Hall. unfold on_registered, bind. rewrite get_model_outcome.
  destruct (PredictionSystem._models s !! name) as [m|] eqn:Hname; simpl; [|done].
  unfold PredictionSystem.on_handle. specialize (Hbody m w (Hall _ _ Hname)).
  destruct (body m w) as [r m' w' ev]; simpl in *. by apply store_device_known.
Qed.

Lemma predict_device_known name smiles s w :
  all_device_known s ->
  all_device_known (obj (PredictionSystem.predict name smiles s w)).
Proof.
  intros Hall. wp_start (PredictionSystem.predict name smiles) s w.
  unfold PredictionSystem.predict, PredictionSystem._get_model.
  wp_run; try done.
  all: match goal with
       | E : PredictionSystem._models _ !! _ = Some _ |- _ =>
           pose proof (Hall _ _ E) as Hdk
       end.
  all: apply store_device_known; [done|]; device_leaf Hdk.
Qed.

Lemma perform_device_known op s w :
  all_device_known s -> all_device_known (obj (perform op s w)).
Proof.
  intros Hall. destruct op; unfold perform; rewrite ?(proj1 (bind_ret_obj _ _ _)).
  - by apply predict_device_known.
  - rewrite get_model_outcome. by destruct (PredictionSystem._models s !! model_name).
  - apply on_registered_device_known; [apply conf_device_known | done].
  - apply on_registered_device_known; [apply read_property_device_known | done].
  - apply on_registered_device_known; [apply load_device_known | done].
  - apply on_registered_device_known; [apply Model_predict_device_known | done].
Qed.

Lemma perform_all_device_known ops : forall s w,
  all_device_known s -> all_device_known (perform_all ops s w).1.
Proof.
  induction ops as [|op rest IH]; intros s w Hall; simpl; [done|].
  by apply IH, perform_device_known.
Qed.

Lemma init_device_known folder key params device w s :
  PredictionSystem.__init__ folder key params device w = Ok s -> all_device_known s.
Proof.
  unfold PredictionSystem.__init__.
  destruct (negb (os_path_isdir w folder)); [done|].
  destruct (os_listdir w folder) as [names|e]; [|done].
  destruct (PredictionSystem.register folder names ∅ w) as [models|e] eqn:Hreg; [|done].
  intros [= <-] name m. simpl. rewrite (register_lookup _ _ _ _ _ Hreg).
  destruct (decide (name ∈ names)); [|by rewrite lookup_empty].
  by intros [= <-] net Hnet.
Qed.

Lemma predict_attribute_error_run s name smiles w m a :
  PredictionSystem._models s !! name = Some m ->
  device_known m ->
  res (PredictionSystem.predict name smiles s w) = Raise (AttributeError a) ->
  a ∈ ["fold_inputs"; "input_transform"; "class_output_size"; "regr_output_size"] /\
  exists m' conf,
    PredictionSystem._models (obj (PredictionSystem.predict name smiles s w)) !! name
      = Some m' /\
    Model._conf m' = Some conf /\
    conf !! a = None.
Proof.
  intros Hm Hdk. wp_start (PredictionSystem.predict name smiles) s w.
  unfold PredictionSystem.predict, PredictionSystem._get_model.
  wp_run; try (by intros [=]).
  all: intros [= <-].
  all: try (exfalso;
            match goal with
            | Hnet : Model._model _ = Some _ |- _ =>
                destruct (Hdk _ Hnet) as [? ?]; congruence
            end).
  all: split; [in_list|]; do 2 eexists; split; [apply lookup_insert_eq|]; wp_simpl.
  all: split; [first [eassumption | reflexivity] | eassumption].
Qed.

(** On a constructed system, whatever has been done with it since, the only
    [AttributeError] a prediction raises is for one of the four attributes it
    reads from the configuration, and the configuration of the model, now
    stored in the handle, indeed lacks it: the attributes [_model] and
    [_device] of the handle are always there when [predict] reads them. *)
Theorem predict_attribute_error
    folder key params device w0 self0 ops w1 model_name smiles w a :
  PredictionSystem.__init__ folder key params device w0 = Ok self0 ->
  res (PredictionSystem.predict model_name smiles (perform_all ops self0 w1).1 w)
    = Raise (AttributeError a) ->
  a ∈ ["fold_inputs"; "input_transform"; "class_output_size"; "regr_output_size"] /\
  exists m' conf,
    PredictionSystem._models
      (obj (PredictionSystem.predict model_name smiles (perform_all ops self0 w1).1 w))
      !! model_name = Some m' /\
    Model._conf m' = Some conf /\
    conf !! a = None.
Proof.
  intros Hinit Hres.
  pose proof (perform_all_device_known ops self0 w1 (init_device_known _ _ _ _ _ _ Hinit))
    as Hall.
  destruct (PredictionSystem._models (perform_all ops self0 w1).1 !! model_name)
    as [m|] eqn:Hm.
  - by eapply predict_attribute_error_run; [exact Hm | eapply Hall | exact Hres].
  - exfalso. revert Hres.
    unfold PredictionSystem.predict, bind at 1. by rewrite get_model_outcome, Hm.
Qed.

(** On the handle of a constructed system, whatever has been done with it
    since, [Model.predict] raises an [AttributeError] exactly when no network
    is stored; it is for [_model], and no delegated call is made. *)
Theorem Model_predict_needs_load folder key params device w0 self0 ops w1 name m data w :
  PredictionSystem.__init__ folder key params device w0 = Ok self0 ->
  PredictionSystem._models (perform_all ops self0 w1).1 !! name = Some m ->
  (Model._model m = None ->
   Model.predict data m w = mkOutcome (Raise (AttributeError "_model")) m w []) /\
  (forall a, res (Model.predict data m w) = Raise (AttributeError a) ->
             a = "_model" /\ Model._model m = None).
Proof.
  intros Hinit Hm.
  pose proof (perform_all_device_known ops self0 w1
                (init_device_known _ _ _ _ _ _ Hinit) _ _ Hm) as Hdk.
  split.
  - intros Hn. unfold Model.predict, bind, get. simpl. by rewrite Hn.
  - intros a. wp_start (Model.predict data) m w. wp_run; try (by intros [= <-]).
    intros _. exfalso.
    match goal with
    | Hnet : Model._model _ = Some _ |- _ => destruct (Hdk _ Hnet) as [? ?]; congruence
    end.
Qed.
End DeviceKnown.

(** ** The files and the literals of a prediction *)

Section Arguments.
Context `{Lib}.




Lemma predict_no_configuration_read s name smiles w m c :
  PredictionSystem._models s !! name = Some m ->
  Model._conf m = Some c ->
  forall e, e ∈ events (PredictionSystem.predict name smiles s w) ->
            is_configuration_read e = false.
Proof.
  intros Hm Hc. wp_start (PredictionSystem.predict name smiles) s w.
  unfold PredictionSystem.predict, PredictionSystem._get_model.
  wp_run; intros call Hcall; in_list_inv Hcall; by subst.
Qed.

(** A configuration stored in a handle is the one every later prediction
    folds with, whatever is done with the system in between: the
    hyperparameters file is not read again, so a change of the file is not
    seen. *)
Theorem stored_configuration_is_kept
    self model_name m c ops w1 smiles w :
  PredictionSystem._models self !! model_name = Some m ->
  Model._conf m = Some c ->
  (forall e,
     e ∈ events (PredictionSystem.predict model_name smiles (perform_all ops self w1).1 w) ->
     is_configuration_read e = false) /\
  (forall data folding_size transform,
     call_fold_transform_inputs data folding_size transform
       ∈ events (PredictionSystem.predict model_name smiles (perform_all ops self w1).1 w) ->
     c !! "fold_inputs" = Some folding_size /\ c !! "input_transform" = Some transform).
Proof.
  intros Hm Hc.
  destruct (perform_all_frame ops self w1) as (_ & _ & _ & _ & Hhandles).
  destruct (Hhandles _ _ Hm) as (m' & Hm' & _ & _ & _ & Hconf & _).
  specialize (Hconf _ Hc). split.
  - by eapply predict_no_configuration_read.
  - intros data folding_size transform Hin.
    destruct (predict_fold _ _ _ _ _ _ _ Hin)
      as (_ & m0 & m1 & conf & Hm0 & _ & _ & Hfold & Htr & Hfrom).
    assert (m0 = m') as -> by congruence.
    destruct Hfrom as [Hstored | [Hnone _]]; [|congruence].
    assert (conf = c) as -> by congruence. done.
Qed.
End Arguments.

Lemma predict_reads_configuration_once_witness :
  let r := @PredictionSystem.predict Toy.lib "a" "smiles.csv" toy_system 0%nat in
  let later := @PredictionSystem.predict Toy.lib "a" "smiles.csv" (obj r) (world r) in
  (length (List.filter is_configuration_read (events r)) <= 1)%nat /\
  List.filter is_configuration_read (events later) = [].
Proof.
  intros r later. split.
  - apply (@predict_reads_configuration_once Toy.lib toy_system "a" "smiles.csv" 0%nat).
  - apply (proj2 (@predict_reads_configuration_once Toy.lib (obj r) "a" "smiles.csv" (world r))
             (@Model.mk Toy.lib "models/a" "models/a/hyperparameters.json"
                "models/a/model.pth" (Some (Toy.conf_at 2)) (Some (5, 2, "cpu")) (Some "cpu"))
             (Toy.conf_at 2)); reflexivity.
Defined.

Lemma predict_loads_once_witness :
  let r := @PredictionSystem.predict Toy.lib "a" "smiles.csv" toy_system 0%nat in
  let later := (perform_all [@Predict Toy.lib "b" "smiles.csv"] (obj r) (world r)).1 in
  @call_read_input_file Toy.lib "smiles.csv"
    ∈ events (@PredictionSystem.predict Toy.lib "a" "smiles.csv" later 40%nat) /\
  is_loading_call (@call_read_input_file Toy.lib "smiles.csv") = false.
Proof.
  intros r later.
  assert (@call_read_input_file Toy.lib "smiles.csv"
            ∈ events (@PredictionSystem.predict Toy.lib "a" "smiles.csv" later 40%nat))
    as Hin by in_list.
  split; [exact Hin|].
  exact (@predict_loads_once Toy.lib toy_system "a" "smiles.csv" 0%nat ((3, 5), (3, 2))
           [@Predict Toy.lib "b" "smiles.csv"] (world r) "smiles.csv" 40%nat _ eq_refl Hin).
Defined.

Lemma predict_inference_device_witness :
  let cuda_system :=
    @PredictionSystem.mk Toy.lib "cuda:0" "key.json" "params.json"
      (PredictionSystem._models toy_system) in
  let s := (perform_all [@LoadModel Toy.lib "a" "cpu"] cuda_system 0%nat).1 in
  let r := @PredictionSystem.predict Toy.lib "a" "smiles.csv" s 6%nat in
  res r = Ok ((3, 5), (3, 2)) /\
  PredictionSystem._device s = "cuda:0" /\
  exists m',
    PredictionSystem._models (obj r) !! "a" = Some m' /\
    Model._device m' = Some "cpu".
Proof.
  intros cuda_system s r.
  assert (@call_predict Toy.lib (5, 2, "cpu") ((3, 1024), (3, 5), (3, 2)) "cpu" 0 false None
            ∈ events r) as Hin by in_list.
  destruct (@predict_inference_device Toy.lib s "a" "smiles.csv" 6%nat _ _ _ _ _ _ Hin)
    as (m0 & m' & _ & Hm' & _ & Hdev & _).
  split; [reflexivity|]. split; [reflexivity|]. by exists m'.
Defined.

Lemma predict_attribute_error_witness :
  let r := @PredictionSystem.predict Faulty.lib "a" "smiles.csv" faulty_system 0%nat in
  res r = Raise (AttributeError "input_transform") /\
  exists m' conf,
    PredictionSystem._models (obj r) !! "a" = Some m' /\
    Model._conf m' = Some conf /\
    conf !! "input_transform" = None.
Proof.
  intros r. split; [reflexivity|].
  exact (proj2 (@predict_attribute_error Faulty.lib "models" "key.json" "params.json" "cpu"
                  0%nat faulty_system [] 0%nat "a" "smiles.csv" 0%nat "input_transform"
                  eq_refl eq_refl)).
Defined.

Lemma Model_predict_needs_load_witness :
  @Model.predict Toy.lib ((3, 1024), (3, 5), (3, 2)) (@Model.unloaded Toy.lib "models/a") 0%nat
  = @mkOutcome Toy.lib _ _ (Raise (AttributeError "_model"))
      (@Model.unloaded Toy.lib "models/a") 0%nat [].
Proof.
  apply (proj1 (@Model_predict_needs_load Toy.lib "models" "key.json" "params.json" "cpu"
                  0%nat toy_system [] 0%nat "a" (@Model.unloaded Toy.lib "models/a")
                  ((3, 1024), (3, 5), (3, 2)) 0%nat eq_refl eq_refl)).
  reflexivity.
Defined.


Lemma stored_configuration_is_kept_witness :
  let s := (perform_all [@Configuration Toy.lib "a"] toy_system 0%nat).1 in
  let r := @PredictionSystem.predict Toy.lib "a" "smiles.csv"
             (perform_all [@Predict Toy.lib "b" "smiles.csv"] s 1%nat).1 50%nat in
  let e := @call_fold_transform_inputs Toy.lib (3, 32000) (VInt 1024) (VStr "binarize") in
  e ∈ events r /\
  Toy.conf_at 0 !! "fold_inputs" = Some (VInt 1024) /\
  Toy.conf_at 0 !! "input_transform" = Some (VStr "binarize").
Proof.
  intros s r e.
  assert (e ∈ events r) as Hin by in_list.
  split; [exact Hin|].
  exact (proj2 (@stored_configuration_is_kept Toy.lib s "a"
                  (Model.set_conf (Toy.conf_at 0) (@Model.unloaded Toy.lib "models/a"))
                  (Toy.conf_at 0) [@Predict Toy.lib "b" "smiles.csv"] 1%nat "smiles.csv"
                  50%nat eq_refl eq_refl) _ _ _ Hin).
Defined.

(** ** Predictions on a stored network *)

Section Warm.
Context `{Lib}.

Lemma predict_network_stored s name smiles w d :
  call_torch_device d ∈ events (PredictionSystem.predict name smiles s w) ->
  exists m' c n,
    PredictionSystem._models (obj (PredictionSystem.predict name smiles s w)) !! name
      = Some m' /\
    Model._conf m' = Some c /\ Model._model m' = Some n.
Proof.
  wp_start (PredictionSystem.predict name smiles) s w.
  unfold PredictionSystem.predict, PredictionSystem._get_model.
  wp_run; intros Hin; in_list_inv Hin.
  all: do 3 eexists; split; [apply lookup_insert_eq|]; wp_simpl.
  all: split; first [eassumption | reflexivity].
Qed.

(** [load] stores the network before it reads [model.pth].  So once a
    prediction has come as far as making the device object for that read, no
    later prediction for the model, whatever is done in between, reads the
    configuration, builds or moves a network, reads [model.pth] or calls
    [load_state_dict]: whether or not that prediction went on to return. *)
Theorem predict_after_network_stored
    self model_name smiles w d ops w1 smiles' w2 e :
  call_torch_device d ∈ events (PredictionSystem.predict model_name smiles self w) ->
  e ∈ events (PredictionSystem.predict model_name smiles'
                (perform_all ops (obj (PredictionSystem.predict model_name smiles self w)) w1).1
                w2) ->
  is_loading_call e = false.
Proof.
  intros Hdev.
  destruct (predict_network_stored _ _ _ _ _ Hdev) as (m' & c & n & Hm' & Hc & Hn).
  destruct (perform_all_frame ops
              (obj (PredictionSystem.predict model_name smiles self w)) w1)
    as (_ & _ & _ & _ & Hhandles).
  destruct (Hhandles _ _ Hm') as (m'' & Hm'' & _ & _ & _ & Hconf & Hnet).
  destruct (Hnet _ Hn) as [Hn'' _].
  by eapply predict_no_loading; [exact Hm'' | apply Hconf | exact Hn''].
Qed.

End Warm.

Lemma predict_after_network_stored_witness :
  let r := @PredictionSystem.predict Faulty.lib "b" "smiles.csv" faulty_system 0%nat in
  let later := @PredictionSystem.predict Faulty.lib "b" "smiles.csv" (obj r) (world r) in
  res r = Raise (@LibraryError Faulty.lib "invalid load key") /\
  res later = Ok ((3, 5), (3, 2)) /\
  @call_predict Faulty.lib (5, 2, "cpu") ((3, 1024), (3, 5), (3, 2)) "cpu" 0 false None
    ∈ events later /\
  is_loading_call
    (@call_predict Faulty.lib (5, 2, "cpu") ((3, 1024), (3, 5), (3, 2)) "cpu" 0 false None)
    = false.
Proof.
  intros r later.
  assert (@call_torch_device Faulty.lib "cpu" ∈ events r) as Hdev by in_list.
  assert (@call_predict Faulty.lib (5, 2, "cpu") ((3, 1024), (3, 5), (3, 2)) "cpu" 0 false None
            ∈ events later) as Hin by in_list.
  split; [reflexivity|]. split; [reflexivity|]. split; [exact Hin|].
  exact (@predict_after_network_stored Faulty.lib faulty_system "b" "smiles.csv" 0%nat "cpu"
           [] (world r) "smiles.csv" (world r) _ Hdev Hin).
Defined.

